(** * SSL/TLS certificate expiry checker: a shallow embedding of
      [ssl_expiry_streamlit.py] and the properties of its probe-and-classify
      engine.

    Conventions of the embedding.
    - Python [int] is [Z]; [host], [error] and the other [str] values are
      [string] (code points below 256, one per [ascii]).
    - A naive [datetime] is kept as its proleptic Gregorian ordinal (what
      [toordinal()] returns) together with its time-of-day fields; a
      [timedelta] is the normalised triple CPython stores.
    - [completed / total] is Python's true division of two ints; the value is
      kept as the exact rational in [Q], of which the float is the correctly
      rounded image (rounding is monotone and fixes 0 and 1).
    - The socket, TLS and clock calls are the environment: each submitted task
      sees a [Network] record that answers them, and every call a task makes is
      written to a log.
    - [as_completed] yields every submitted future once, in an order fixed by
      the environment: the completion schedule [sched].
    - [st.cache_data] memoises [run_checks] by its arguments; the embedding is
      one execution of its body. *)

From Stdlib Require Import Ascii String ZArith QArith Lia.
From stdpp Require Import gmap strings list fin_maps.

Local Open Scope string_scope.
Local Open Scope list_scope.
Local Open Scope Z_scope.

(** ** Strings: [str.strip] and [str.splitlines] *)

Module Str.

(** [str.isspace] on one character, for the code points below 256:
    U+0009..U+000D, U+001C..U+001F, U+0020, U+0085 and U+00A0. *)
Definition isspace (c : ascii) : bool :=
  let n := nat_of_ascii c in
  ((9 <=? n) && (n <=? 13) || (28 <=? n) && (n <=? 31)
   || (n =? 32) || (n =? 133) || (n =? 160))%nat.

(** The line boundaries of [str.splitlines] below 256:
    LF, VT, FF, CR, FS, GS, RS and NEL. *)
Definition is_linebreak (c : ascii) : bool :=
  let n := nat_of_ascii c in
  ((10 <=? n) && (n <=? 13) || (28 <=? n) && (n <=? 30) || (n =? 133))%nat.

Definition is_cr (c : ascii) : bool := (nat_of_ascii c =? 13)%nat.
Definition is_lf (c : ascii) : bool := (nat_of_ascii c =? 10)%nat.

Fixpoint lstrip (s : string) : string :=
  match s with
  | EmptyString => EmptyString
  | String c rest => if isspace c then lstrip rest else s
  end.

Fixpoint rstrip (s : string) : string :=
  match s with
  | EmptyString => EmptyString
  | String c rest =>
      match rstrip rest with
      | EmptyString => if isspace c then EmptyString else String c EmptyString
      | kept => String c kept
      end
  end.

Definition strip (s : string) : string := rstrip (lstrip s).

Fixpoint rev_acc (acc s : string) : string :=
  match s with
  | EmptyString => acc
  | String c rest => rev_acc (String c acc) rest
  end.

(** [splitlines_from cur s]: [cur] is the current line read so far, in
    reverse, or [None] when no character has been read since the last
    boundary (so that a final boundary opens no empty last line). *)
Fixpoint splitlines_from (cur : option string) (s : string) : list string :=
  match s with
  | EmptyString =>
      match cur with
      | Some line => [rev_acc EmptyString line]
      | None => []
      end
  | String c rest =>
      if is_linebreak c then
        rev_acc EmptyString (default EmptyString cur) ::
        match rest with
        | String c' rest' =>
            if is_cr c && is_lf c' then splitlines_from None rest'
            else splitlines_from None rest
        | EmptyString => splitlines_from None rest
        end
      else splitlines_from (Some (String c (default EmptyString cur))) rest
  end.

Definition splitlines (s : string) : list string := splitlines_from None s.

(** Truthiness of a [str]: non-empty. *)
Definition truthy (s : string) : bool :=
  match s with EmptyString => false | _ => true end.

End Str.

(** ** [datetime] and [timedelta] *)

Record datetime := {
  toordinal : Z;
  hour : Z;
  minute : Z;
  second : Z;
  microsecond : Z
}.

Record timedelta := {
  days : Z;
  seconds : Z;
  microseconds : Z
}.

(** The [timedelta] constructor: microseconds are carried into seconds and
    seconds into days with [divmod], so that [0 <= seconds < 86400] and
    [0 <= microseconds < 1000000] whatever the signs of the arguments. *)
Definition mk_timedelta (d s us : Z) : timedelta :=
  let s1 := s + us / 1000000 in
  {| days := d + s1 / 86400;
     seconds := s1 mod 86400;
     microseconds := us mod 1000000 |}.

Definition second_of_day (t : datetime) : Z :=
  second t + minute t * 60 + hour t * 3600.

(** [a - b] on two naive datetimes. *)
Definition datetime_sub (a b : datetime) : timedelta :=
  mk_timedelta (toordinal a - toordinal b)
               (second_of_day a - second_of_day b)
               (microsecond a - microsecond b).

(** The instant of a datetime in microseconds since the start of ordinal 0. *)
Definition to_micros (t : datetime) : Z :=
  (toordinal t * 86400 + second_of_day t) * 1000000 + microsecond t.

Definition us_per_day : Z := 86400 * 1000000.

(** ** Exceptions and the probe monad *)

(** An instance of [Exception]: its class name and what [str(e)] returns. *)
Record PyException := {
  exc_class : string;
  exc_str : string
}.

Definition sslcontext := nat.
Definition socket := nat.
Definition sslsocket := nat.

(** The library calls a probe makes. *)
Inductive call :=
| CreateDefaultContext
| CreateConnection (host : string) (port : Z) (timeout : Q)
| WrapSocket (context : sslcontext) (sock : socket) (server_hostname : string)
| GetPeerCert (ssock : sslsocket)
| Strptime (text format : string)
| UtcNow.

(** What the world answers to one task. *)
Record Network := {
  create_default_context : PyException + sslcontext;
  create_connection : string -> Z -> Q -> PyException + socket;
  wrap_socket : sslcontext -> socket -> string -> PyException + sslsocket;
  getpeercert : sslsocket -> gmap string string;
  strptime : string -> string -> PyException + datetime;
  utcnow : datetime
}.

(** A computation that logs its library calls and may raise. *)
Definition Probe (A : Type) : Type := list call * (PyException + A).

Definition ret {A} (x : A) : Probe A := ([], inr x).

Definition raise {A} (e : PyException) : Probe A := ([], inl e).

Definition bind {A B} (m : Probe A) (k : A -> Probe B) : Probe B :=
  match m with
  | (log, inl e) => (log, inl e)
  | (log, inr x) => let '(log', r) := k x in (log ++ log', r)
  end.

Definition perform {A} (c : call) (answer : PyException + A) : Probe A :=
  ([c], answer).

Notation "'let*' x ':=' m 'in' k" := (bind m (fun x => k))
  (at level 10, x name, m at level 100, k at level 200).

(** ** Certificate inspection functions *)

Definition default_timeout : Q := 5.

Definition notAfter_format : string := "%b %d %H:%M:%S %Y %Z".

(** [cert["notAfter"]]: a missing key raises [KeyError]. *)
Definition cert_notAfter (cert : gmap string string) : Probe string :=
  match cert !! "notAfter" with
  | Some text => ret text
  | None => raise {| exc_class := "KeyError"; exc_str := "'notAfter'" |}
  end.

Definition fetch_cert_expiry (w : Network) (host : string) (port : Z)
    (timeout : Q) : Probe datetime :=
  let* context := perform CreateDefaultContext (create_default_context w) in
  let* sock := perform (CreateConnection host port timeout)
                       (create_connection w host port timeout) in
  let* ssock := perform (WrapSocket context sock host)
                        (wrap_socket w context sock host) in
  let* cert := perform (GetPeerCert ssock) (inr (getpeercert w ssock)) in
  let* text := cert_notAfter cert in
  perform (Strptime text notAfter_format) (strptime w text notAfter_format).

Inductive Status := OK | WARNING | ERROR.

#[global] Instance Status_eq_dec : EqDecision Status.
Proof. solve_decision. Defined.

Definition status_str (s : Status) : string :=
  match s with OK => "OK" | WARNING => "WARNING" | ERROR => "ERROR" end.

(** The dict [check_host] returns. *)
Record outcome := {
  host : string;
  port : Z;
  expiry : option datetime;
  days_left : option Z;
  status : Status;
  error : string
}.

(** [check_host]: the [try] body is the probe followed by the clock reading;
    every [Exception] is handled, so the function returns a dict in all
    cases. The log of the calls made comes back beside it. *)
Definition check_host (w : Network) (h : string) (p : Z) (warn_days : Z)
    : list call * outcome :=
  let body : Probe outcome :=
    let* expiry := fetch_cert_expiry w h p default_timeout in
    let* now := perform UtcNow (inr (utcnow w)) in
    let days_left := days (datetime_sub expiry now) in
    let status := if days_left >? warn_days then OK else WARNING in
    ret {| host := h; port := p; expiry := Some expiry;
           days_left := Some days_left; status := status; error := "" |}
  in
  match body with
  | (log, inr o) => (log, o)
  | (log, inl e) =>
      (log, {| host := h; port := p; expiry := None; days_left := None;
               status := ERROR; error := exc_str e |})
  end.

(** ** The orchestrator *)

(** What the page shows while a batch runs, interleaved with the appends to
    [results]. *)
Inductive event :=
| ProgressNew (value : Q)
| Appended (o : outcome)
| ProgressSet (value : Q).

(** The variables of the collecting loop, with the events so far and the
    calls of the tasks already collected. *)
Record loop_state := {
  results : list outcome;
  completed : Z;
  shown : list event;
  calls : list call
}.

(** [{executor.submit(check_host, h, port, warn_days): h for h in hosts}]:
    the keys are the futures, one new future per [submit], named here by the
    position of the submission. *)
Definition submit_all (hosts : list string) : gmap nat string :=
  map_seq 0%nat hosts.

(** [fut.result()] for a future of the dict: what [check_host] returned in
    the worker that ran it, in the world that task saw. *)
Definition fut_result (world : nat -> Network) (futures : gmap nat string)
    (p warn_days : Z) (fut : nat) : option (list call * outcome) :=
  h ← futures !! fut; Some (check_host (world fut) h p warn_days).

(** [a / b] on two ints. The loop divides only after a future completed, so
    with [b] at least 1. *)
Definition true_div (a b : Z) : Q := inject_Z a / inject_Z b.

(** One turn of [for fut in as_completed(futures)]. [as_completed] yields
    futures of the dict only; a name outside it leaves the state as it is. *)
Definition collect (world : nat -> Network) (futures : gmap nat string)
    (p warn_days : Z) (total : Z) (st : loop_state) (fut : nat) : loop_state :=
  match fut_result world futures p warn_days fut with
  | None => st
  | Some (log, o) =>
      let completed' := completed st + 1 in
      {| results := results st ++ [o];
         completed := completed';
         shown := shown st ++
                  [Appended o; ProgressSet (true_div completed' total)];
         calls := calls st ++ log |}
  end.

(** What [run_checks] hands back: the rows of the DataFrame, in the order of
    completion, with what was shown and called on the way. The two display
    columns added to the frame ([expiry] re-read as a timestamp and its
    formatted text) are read by the table and the exports only and are left
    out of the rows. *)
Record batch := {
  df : list outcome;
  progress_events : list event;
  probe_calls : list call
}.

(** [run_checks]. [ThreadPoolExecutor] refuses a worker count below one with
    a [ValueError], and a frame built from no rows has no [expiry] column, so
    that reading it raises [KeyError]. *)
Definition run_checks (world : nat -> Network) (sched : list nat)
    (hosts : list string) (p warn_days workers : Z) : PyException + batch :=
  if workers <=? 0 then
    inl {| exc_class := "ValueError";
           exc_str := "max_workers must be greater than 0" |}
  else
    let futures := submit_all hosts in
    let total := Z.of_nat (size futures) in
    let start := {| results := []; completed := 0;
                    shown := [ProgressNew 0]; calls := [] |} in
    let final := foldl (collect world futures p warn_days total) start sched in
    match results final with
    | [] => inl {| exc_class := "KeyError"; exc_str := "'expiry'" |}
    | rows => inr {| df := rows; progress_events := shown final;
                     probe_calls := calls final |}
    end.

(** ** The page: host list and histogram *)

(** [[h.strip() for h in content.splitlines() if h.strip()]] *)
Definition prepare_hosts (content : string) : list string :=
  omap (fun h => if Str.truthy (Str.strip h) then Some (Str.strip h) else None)
       (Str.splitlines content).

(** [bytes.decode('utf-8')] is the library's: [decode] is what it answers to
    the bytes of an uploaded file, the text or a [UnicodeDecodeError]. *)
Definition decoder : Type := list Byte.byte -> PyException + string.

(** The text the hosts are read from: [file_upload.read().decode('utf-8')]
    when a file was uploaded, given by its bytes, and the text area otherwise.
    Nothing handles the exception of a file that cannot be decoded. *)
Definition submitted_text (decode : decoder) (hosts_input : string)
    (file_upload : option (list Byte.byte)) : PyException + string :=
  match file_upload with
  | Some raw => decode raw
  | None => inr hosts_input
  end.

(** The host list of a submission. *)
Definition submitted_hosts (decode : decoder) (hosts_input : string)
    (file_upload : option (list Byte.byte)) : PyException + list string :=
  match submitted_text decode hosts_input file_upload with
  | inl e => inl e
  | inr content => inr (prepare_hosts content)
  end.

Inductive page :=
| PleaseProvideHost
| Crashed (e : PyException)
| Report (b : batch).

(** The [if submitted:] branch up to the call of [run_checks]: an exception
    of the decoding or of [run_checks] ends the run of the page. *)
Definition on_submit (world : nat -> Network) (sched : list nat)
    (decode : decoder) (hosts_input : string)
    (file_upload : option (list Byte.byte))
    (p warn_days workers : Z) : page :=
  match submitted_hosts decode hosts_input file_upload with
  | inl e => Crashed e
  | inr [] => PleaseProvideHost
  | inr hosts =>
      match run_checks world sched hosts p warn_days workers with
      | inl e => Crashed e
      | inr b => Report b
      end
  end.

Definition fillna (value : Z) (x : option Z) : Z := default value x.

Definition bins : list Z := [-999; 0; 7; 30; 90; 365; 9999].

Definition labels : list string :=
  ["Expired"; "0-7 days"; "8-30 days"; "31-90 days"; "91-365 days"; ">365 days"].

(** [pd.cut] with its defaults ([right=True], [include_lowest=False]): the
    label of the interval [(lo, hi]] of consecutive edges that holds [x], and
    no label (NaN) when no interval does. *)
Fixpoint cut (x : Z) (edges : list Z) (names : list string) : option string :=
  match edges, names with
  | lo :: ((hi :: _) as rest), name :: names' =>
      if (lo <? x) && (x <=? hi) then Some name else cut x rest names'
  | _, _ => None
  end.

Definition days_left_bucket (rows : list outcome) : list (option string) :=
  map (fun o => cut (fillna (-1) (days_left o)) bins labels) rows.

(** [value_counts()] of a categorical column: one count per category, the
    unobserved ones included with 0 and the rows without a category left out;
    [sort_index()] then puts the categories in their declared order. *)
Definition value_counts_sorted (categories : list string)
    (column : list (option string)) : list (string * nat) :=
  map (fun name => (name, length (filter (fun c => c = Some name) column)))
      categories.

Definition bucket_counts (rows : list outcome) : list (string * nat) :=
  value_counts_sorted labels (days_left_bucket rows).

Definition counts_total (counts : list (string * nat)) : nat :=
  sum_list (map snd counts).

(** The rows that [pd.cut] gives a bucket: those whose filled days left lie
    in [(-999, 9999]]. *)
Definition has_bucket (o : outcome) : bool :=
  (-999 <? fillna (-1) (days_left o)) && (fillna (-1) (days_left o) <=? 9999).

(** The four summary metrics. *)
Definition count_status (s : Status) (rows : list outcome) : nat :=
  length (filter (fun o => status o = s) rows).

(** ** Reading one probe *)

Definition probe_outcome (w : Network) (h : string) (p warn_days : Z) : outcome :=
  snd (check_host w h p warn_days).

Definition probe_log (w : Network) (h : string) (p warn_days : Z) : list call :=
  fst (check_host w h p warn_days).

(** What the prober gave back to [check_host]: the expiry or the exception. *)
Definition probed (w : Network) (h : string) (p : Z) : PyException + datetime :=
  snd (fetch_cert_expiry w h p default_timeout).

Definition success_row (w : Network) (h : string) (p warn_days : Z)
    (e : datetime) : outcome :=
  let d := days (datetime_sub e (utcnow w)) in
  {| host := h; port := p; expiry := Some e; days_left := Some d;
     status := if d >? warn_days then OK else WARNING; error := "" |}.

Definition error_row (h : string) (p : Z) (e : PyException) : outcome :=
  {| host := h; port := p; expiry := None; days_left := None;
     status := ERROR; error := exc_str e |}.


(** ** Reading a batch *)

(** The values passed to [progress.progress], in the order of the calls. *)
Definition progress_updates (evs : list event) : list Q :=
  omap (fun ev => match ev with ProgressSet v => Some v | _ => None end) evs.

(** The events of collecting the outcomes [os] one after the other, when [k]
    futures were collected before. *)
Fixpoint shown_from (total k : Z) (os : list outcome) : list event :=
  match os with
  | [] => []
  | o :: os' =>
      Appended o :: ProgressSet (true_div (k + 1) total)
        :: shown_from total (k + 1) os'
  end.

(** What the task of a future leaves in its future, for the hosts of a batch. *)
Definition task (world : nat -> Network) (hosts : list string)
    (p warn_days : Z) (fut : nat) : option (list call * outcome) :=
  fut_result world (submit_all hosts) p warn_days fut.

Definition is_connect (c : call) : bool :=
  match c with CreateConnection _ _ _ => true | _ => false end.

(** The timeout a call passes to [socket.create_connection], for the calls
    that open a connection. *)
Definition timeout_of (c : call) : option Q :=
  match c with CreateConnection _ _ t => Some t | _ => None end.

(** The connection the task of a future opens: none when its TLS context
    cannot be made, and otherwise one to its host, on the port of the batch,
    with a timeout of 5 seconds. *)
Definition connection_of (world : nat -> Network) (hosts : list string)
    (p : Z) (fut : nat) : option call :=
  h ← hosts !! fut;
  match create_default_context (world fut) with
  | inr _ => Some (CreateConnection h p 5%Q)
  | inl _ => None
  end.

(** Two networks that answer alike, except possibly to connection attempts
    with a timeout other than 5 seconds. *)
Definition same_at_5_seconds (w w' : Network) : Prop :=
  create_default_context w = create_default_context w' /\
  (forall h p, create_connection w h p 5%Q = create_connection w' h p 5%Q) /\
  (forall context sock h,
      wrap_socket w context sock h = wrap_socket w' context sock h) /\
  (forall ssock, getpeercert w ssock = getpeercert w' ssock) /\
  (forall text format, strptime w text format = strptime w' text format) /\
  utcnow w = utcnow w'.

Definition nondecreasing (vs : list Q) : Prop :=
  forall i j vi vj, (i <= j)%nat -> vs !! i = Some vi -> vs !! j = Some vj ->
    (vi <= vj)%Q.

Definition page_rows (pg : page) : option (list outcome) :=
  match pg with Report b => Some (df b) | _ => None end.

(** ** Concrete worlds *)

Definition LF : string := String (ascii_of_nat 10) EmptyString.

Definition at_time (ordinal h m s us : Z) : datetime :=
  {| toordinal := ordinal; hour := h; minute := m; second := s;
     microsecond := us |}.

(** 3 November 2026, 12:00:00 UTC. *)
Definition noon_2026_11_03 : datetime := at_time 739923 12 0 0 0.

(** A server that completes the handshake and presents a certificate whose
    [notAfter] text parses to [e]; the clock reads [now]. *)
Definition serving (text : string) (e now : datetime) : Network :=
  {| create_default_context := inr 1%nat;
     create_connection := fun _ _ _ => inr 3%nat;
     wrap_socket := fun _ s _ => inr s;
     getpeercert := fun _ => {[ "notAfter" := text ]};
     strptime := fun _ _ => inr e;
     utcnow := now |}.

(** A host on which the connection attempt raises [x]. *)
Definition failing (x : PyException) (now : datetime) : Network :=
  {| create_default_context := inr 1%nat;
     create_connection := fun _ _ _ => inl x;
     wrap_socket := fun _ s _ => inr s;
     getpeercert := fun _ => ∅;
     strptime := fun _ _ => inr now;
     utcnow := now |}.

Definition connection_refused : PyException :=
  {| exc_class := "ConnectionRefusedError";
     exc_str := "[Errno 111] Connection refused" |}.

(** [MemoryError()], as the interpreter raises it: no arguments, and so an
    empty [str(e)]. *)
Definition memory_error : PyException :=
  {| exc_class := "MemoryError"; exc_str := "" |}.

(** The scenario of three hosts: the first certificate ends on 22 May 2027,
    the second on 8 November 2026 at 18:00, the third host refuses the
    connection. *)
Definition three_hosts : list string :=
  ["a.example"; "b.example"; "c.example"].

Definition three_hosts_world (task : nat) : Network :=
  match task with
  | 0%nat => serving "May 22 12:00:00 2027 GMT" (at_time 740123 12 0 0 0)
                     noon_2026_11_03
  | 1%nat => serving "Nov  8 18:00:00 2026 GMT" (at_time 739928 18 0 0 0)
                     noon_2026_11_03
  | _ => failing connection_refused noon_2026_11_03
  end.

(** A certificate that ended one hour before the clock reading. *)
Definition just_expired : Network :=
  serving "Nov  3 11:00:00 2026 GMT" (at_time 739923 11 0 0 0) noon_2026_11_03.

(** A certificate that ended at 12:00:00, read by a probe whose handshake fell
    just before that instant and whose clock reading fell 0.35 seconds after
    it. *)
Definition lapsed_during_probe : Network :=
  serving "Nov  3 12:00:00 2026 GMT" (at_time 739923 12 0 0 0)
          (at_time 739923 12 0 0 350000).

(** The network [w], except that every connection attempt with another
    timeout than 5 seconds times out. *)
Definition impatient (w : Network) : Network :=
  {| create_default_context := create_default_context w;
     create_connection := fun h p t =>
       if Qeq_bool t 5 then create_connection w h p t
       else inl {| exc_class := "TimeoutError"; exc_str := "timed out" |};
     wrap_socket := wrap_socket w;
     getpeercert := getpeercert w;
     strptime := strptime w;
     utcnow := utcnow w |}.

Definition three_hosts_text : string :=
  "a.example" +:+ LF +:+ "b.example" +:+ LF +:+ "c.example".

(** The file that holds [three_hosts_text], byte by byte. *)
Definition three_hosts_file : list Byte.byte :=
  list_byte_of_string three_hosts_text.

(** What the library answers to a file whose bytes decode to [content], and
    to a file that starts with the byte [0xff]. *)
Definition decodes_to (content : string) : decoder := fun _ => inr content.

Definition undecodable : decoder :=
  fun _ => inl {| exc_class := "UnicodeDecodeError";
                  exc_str := "'utf-8' codec can't decode byte 0xff in position 0: invalid start byte" |}.

(** A certificate valid until 21 March 2054, 10000 days after the clock
    reading. *)
Definition long_lived : Network :=
  serving "Mar 21 12:00:00 2054 GMT" (at_time 749923 12 0 0 0) noon_2026_11_03.

(** ** The rest of the page *)

(** The four metrics of the summary: total hosts, OK, warnings, errors. *)
Definition summary (rows : list outcome) : nat * nat * nat * nat :=
  (length rows, count_status OK rows, count_status WARNING rows,
   count_status ERROR rows).

(** A certificate that was read and has at most [0] days left, within the
    first interval of the bins. *)
Definition expired_in_range (o : outcome) : bool :=
  match days_left o with
  | Some d => (-999 <? d) && (d <=? 0)
  | None => false
  end.

Definition is_context (c : call) : bool :=
  match c with CreateDefaultContext => true | _ => false end.

(** The columns of the table that is shown and exported. *)
Definition display_columns : list string :=
  ["host"; "port"; "expiry_display"; "days_left"; "status"; "error"].

(** [highlight_row], for a row of [len] cells: one style for every cell,
    chosen by the status of the row. *)
Definition highlight_row (len : nat) (s : Status) : list string :=
  match s with
  | WARNING => replicate len "background-color: #fff59d"
  | ERROR => replicate len "background-color: #ef5350; color: white"
  | OK => replicate len ""
  end.

(** ** Reading strings *)

Fixpoint all_chars (P : ascii -> bool) (s : string) : bool :=
  match s with
  | EmptyString => true
  | String c rest => P c && all_chars P rest
  end.

(** Only whitespace, or nothing at all. *)
Definition blank (s : string) : bool := all_chars Str.isspace s.

(** No line boundary inside. *)
Definition one_line (s : string) : bool :=
  all_chars (fun c => negb (Str.is_linebreak c)) s.

(** A host as the page passes it on: not empty, nothing to strip, on one
    line. *)
Definition clean_host (h : string) : Prop :=
  h <> "" /\ Str.strip h = h /\ one_line h = true.

(** A handshake that succeeds on a certificate without a [notAfter] entry. *)
Definition without_notAfter : Network :=
  {| create_default_context := inr 1%nat;
     create_connection := fun _ _ _ => inr 3%nat;
     wrap_socket := fun _ s _ => inr s;
     getpeercert := fun _ => ∅;
     strptime := fun _ _ => inr noon_2026_11_03;
     utcnow := noon_2026_11_03 |}.
(** * Properties *)

(** ** One probe *)

Lemma probe_outcome_cases w h p warn_days :
  probe_outcome w h p warn_days =
    match probed w h p with
    | inr e => success_row w h p warn_days e
    | inl x => error_row h p x
    end.
Proof.
  unfold probe_outcome, probed, check_host.
  destruct (fetch_cert_expiry w h p default_timeout) as [log [x|e]]; reflexivity.
Qed.

Lemma probe_outcome_success w h p warn_days e :
  probed w h p = inr e ->
  probe_outcome w h p warn_days = success_row w h p warn_days e.
Proof. intros H. rewrite probe_outcome_cases, H. reflexivity. Qed.

Lemma probe_outcome_raised w h p warn_days x :
  probed w h p = inl x ->
  probe_outcome w h p warn_days = error_row h p x.
Proof. intros H. rewrite probe_outcome_cases, H. reflexivity. Qed.

Lemma probe_outcome_host w h p warn_days :
  host (probe_outcome w h p warn_days) = h.
Proof. rewrite probe_outcome_cases. destruct (probed w h p); reflexivity. Qed.

(** The three ways a probe fails: the connection, the handshake and the
    reading of the certificate's date each hand their exception to
    [check_host]. *)
Lemma probe_failure_stages w h p x :
  (create_default_context w = inl x \/
   exists context,
     create_default_context w = inr context /\
     (create_connection w h p default_timeout = inl x \/
      exists sock,
        create_connection w h p default_timeout = inr sock /\
        (wrap_socket w context sock h = inl x \/
         exists ssock text,
           wrap_socket w context sock h = inr ssock /\
           getpeercert w ssock !! "notAfter" = Some text /\
           strptime w text notAfter_format = inl x))) ->
  probed w h p = inl x.
Proof.
  unfold probed, fetch_cert_expiry, cert_notAfter, bind, perform, ret, raise.
  intros [->|(context & -> &
              [->|(sock & -> & [->|(ssock & text & -> & -> & ->)])])];
    reflexivity.
Qed.

(** The days of a difference are the floor of the distance between the two
    instants, measured in days. *)
Lemma datetime_sub_days a b :
  days (datetime_sub a b) = (to_micros a - to_micros b) / us_per_day.
Proof.
  change us_per_day with (1000000 * 86400).
  unfold datetime_sub, mk_timedelta, to_micros. cbn [days].
  set (d := toordinal a - toordinal b).
  set (s := second_of_day a - second_of_day b).
  set (u := microsecond a - microsecond b).
  replace ((toordinal a * 86400 + second_of_day a) * 1000000 + microsecond a
           - ((toordinal b * 86400 + second_of_day b) * 1000000 + microsecond b))
    with ((d * 86400 + s) * 1000000 + u) by (unfold d, s, u; ring).
  rewrite <- Z.div_div by lia.
  rewrite Z.div_add_l by lia.
  replace (d * 86400 + s + u / 1000000) with (d * 86400 + (s + u / 1000000)) by ring.
  rewrite Z.div_add_l by lia. reflexivity.
Qed.

Lemma floor_bounds x d : 0 < d -> (x / d) * d <= x < (x / d + 1) * d.
Proof.
  intros Hd. pose proof (Z.div_mod x d ltac:(lia)) as E.
  pose proof (Z.mod_pos_bound x d Hd). nia.
Qed.

Lemma floor_unique x d q : 0 < d -> q * d <= x < (q + 1) * d -> x / d = q.
Proof.
  intros Hd H. symmetry. apply (Z.div_unique_pos x d q (x - q * d)); lia.
Qed.

(** C1. An outcome of [check_host] that carries an expiry has status WARNING
    exactly when its days left are at most the warning threshold, negative
    values included, and status OK exactly when they exceed it. *)
Theorem check_host_status_by_threshold w h p warn_days :
  expiry (probe_outcome w h p warn_days) <> None ->
  exists d,
    days_left (probe_outcome w h p warn_days) = Some d /\
    (status (probe_outcome w h p warn_days) = WARNING <-> d <= warn_days) /\
    (status (probe_outcome w h p warn_days) = OK <-> d > warn_days).
Proof.
  rewrite probe_outcome_cases.
  destruct (probed w h p) as [x|e]; [intros H; exfalso; apply H; reflexivity|].
  intros _. unfold success_row. cbn [expiry days_left status].
  generalize (days (datetime_sub e (utcnow w))). intros d.
  exists d. split; [reflexivity|].
  destruct (Z.gtb_spec d warn_days);
    split; split; intros; try lia; try congruence.
Qed.

Lemma check_host_status_by_threshold_witness :
  exists d,
    days_left (probe_outcome just_expired "old.example" 443 15) = Some d /\
    (status (probe_outcome just_expired "old.example" 443 15) = WARNING
       <-> d <= 15) /\
    (status (probe_outcome just_expired "old.example" 443 15) = OK <-> d > 15).
Proof.
  apply (check_host_status_by_threshold just_expired "old.example" 443 15).
  vm_compute. discriminate.
Defined.

(** C2. An outcome of [check_host] has status ERROR exactly when its expiry
    is absent, and then its days left are absent too. *)
Theorem check_host_error_iff_no_expiry w h p warn_days :
  (status (probe_outcome w h p warn_days) = ERROR
     <-> expiry (probe_outcome w h p warn_days) = None) /\
  (expiry (probe_outcome w h p warn_days) = None
     -> days_left (probe_outcome w h p warn_days) = None).
Proof.
  rewrite probe_outcome_cases.
  destruct (probed w h p) as [x|e].
  - split; [split|]; reflexivity.
  - unfold success_row. cbn [expiry days_left status].
    split; [split|]; intros H; try discriminate H.
    destruct (days (datetime_sub e (utcnow w)) >? warn_days); discriminate H.
Qed.

(** C6. After a successful probe the days left are the floor of the distance
    from the clock reading to the expiry, counted in days: the one integer [d]
    with [d] days [<=] distance [<] [d + 1] days. A certificate that ended at
    most one day ago therefore has [-1] days left, not [0]. *)
Theorem days_left_floors w h p warn_days e :
  probed w h p = inr e ->
  exists d,
    days_left (probe_outcome w h p warn_days) = Some d /\
    d = (to_micros e - to_micros (utcnow w)) / us_per_day /\
    d * us_per_day <= to_micros e - to_micros (utcnow w) < (d + 1) * us_per_day /\
    (- us_per_day <= to_micros e - to_micros (utcnow w) < 0 -> d = -1).
Proof.
  intros H. rewrite (probe_outcome_success _ _ _ _ _ H).
  unfold success_row. cbn [days_left].
  eexists. split; [reflexivity|].
  rewrite datetime_sub_days.
  assert (0 < us_per_day) as Hd by (unfold us_per_day; lia).
  split; [reflexivity|]. split; [apply floor_bounds; exact Hd|].
  intros Hneg. apply floor_unique; [exact Hd|]. lia.
Qed.

Lemma days_left_floors_witness :
  days_left (probe_outcome just_expired "old.example" 443 15) = Some (-1).
Proof.
  destruct (days_left_floors just_expired "old.example" 443 15
              (at_time 739923 11 0 0 0) eq_refl) as (d & -> & _ & _ & Hd).
  f_equal. apply Hd. vm_compute. split; [discriminate|reflexivity].
Defined.

(** C8, as the code has it. The error text is empty on OK and on WARNING; on
    ERROR it is the string form of the exception that was caught, whatever
    that string is. *)
Theorem check_host_error_text w h p warn_days :
  (status (probe_outcome w h p warn_days) <> ERROR
     -> error (probe_outcome w h p warn_days) = "") /\
  (status (probe_outcome w h p warn_days) = ERROR
     -> exists x, probed w h p = inl x /\
                  error (probe_outcome w h p warn_days) = exc_str x).
Proof.
  rewrite probe_outcome_cases.
  destruct (probed w h p) as [x|e].
  - split; [intros H; exfalso; apply H; reflexivity|].
    intros _. exists x. split; reflexivity.
  - unfold success_row. cbn [status error]. split; [reflexivity|].
    destruct (days (datetime_sub e (utcnow w)) >? warn_days); discriminate.
Qed.

(** C8, counterexample. A probe that runs out of memory raises
    [MemoryError()], whose string form is empty: the outcome is an ERROR with
    an empty error text. *)
Lemma error_text_can_be_empty :
  ~ (status (probe_outcome (failing memory_error noon_2026_11_03)
                           "a.example" 443 15) = ERROR
     -> error (probe_outcome (failing memory_error noon_2026_11_03)
                             "a.example" 443 15) <> "").
Proof. intros H. apply H; reflexivity. Qed.

(** ** The batch *)

Lemma submit_all_lookup (hosts : list string) i :
  submit_all hosts !! i = hosts !! i.
Proof. apply lookup_map_seq_0. Qed.

Lemma map_seq_size (start : nat) (xs : list string) :
  size (map_seq start xs : gmap nat string) = length xs.
Proof.
  revert start. induction xs as [|x xs IH]; intros start.
  - apply map_size_empty.
  - cbn [map_seq length].
    rewrite map_size_insert_None by apply map_seq_cons_disjoint.
    f_equal. apply IH.
Qed.

(** [len(futures)] is [len(hosts)]: equal hosts are submitted as different
    futures. *)
Lemma submit_all_size hosts : size (submit_all hosts) = length hosts.
Proof. apply map_seq_size. Qed.

Lemma task_submitted world hosts p warn_days fut h :
  hosts !! fut = Some h ->
  task world hosts p warn_days fut = Some (check_host (world fut) h p warn_days).
Proof.
  intros H. unfold task, fut_result. rewrite submit_all_lookup, H. reflexivity.
Qed.

Lemma task_Some_inv world hosts p warn_days fut r :
  task world hosts p warn_days fut = Some r ->
  exists h, hosts !! fut = Some h /\ r = check_host (world fut) h p warn_days.
Proof.
  unfold task, fut_result. rewrite submit_all_lookup.
  destruct (hosts !! fut) as [h|]; [|discriminate].
  intros [= <-]. exists h. split; reflexivity.
Qed.

Lemma task_is_Some world hosts p warn_days fut :
  (fut < length hosts)%nat -> is_Some (task world hosts p warn_days fut).
Proof.
  intros H. destruct (lookup_lt_is_Some_2 hosts fut H) as [h Hh].
  rewrite (task_submitted _ _ _ _ _ _ Hh). eauto.
Qed.

Lemma collect_all world futures p warn_days total sched st :
  foldl (collect world futures p warn_days total) st sched =
    let rs := omap (fut_result world futures p warn_days) sched in
    {| results := results st ++ rs.*2;
       completed := completed st + Z.of_nat (length rs);
       shown := shown st ++ shown_from total (completed st) rs.*2;
       calls := calls st ++ concat rs.*1 |}.
Proof.
  revert st. induction sched as [|fut sched IH]; intros st.
  - destruct st. cbn. rewrite !app_nil_r, Z.add_0_r. reflexivity.
  - cbn [foldl]. rewrite IH. cbn zeta. unfold collect.
    cbn [omap list_omap].
    destruct (fut_result world futures p warn_days fut) as [[log o]|].
    + cbn [results completed shown calls fmap list_fmap length concat fst snd
           shown_from].
      rewrite <- !app_assoc. cbn [app]. f_equal. lia.
    + reflexivity.
Qed.

Lemma length_omap_total {A B} (f : A -> option B) (l : list A) :
  Forall (fun x => is_Some (f x)) l -> length (omap f l) = length l.
Proof.
  induction 1 as [|x l [y Hy] _ IH]; [reflexivity|].
  cbn [omap list_omap]. rewrite Hy. cbn. f_equal. exact IH.
Qed.

Lemma tasks_of_seq world hosts p warn_days :
  length (omap (task world hosts p warn_days) (seq 0 (length hosts)))
  = length hosts.
Proof.
  rewrite length_omap_total; [apply length_seq|].
  apply Forall_forall. intros fut Hin. apply task_is_Some.
  apply elem_of_seq in Hin. lia.
Qed.

(** Every future of the dict is collected once, whatever the order. *)
Lemma tasks_of_schedule world hosts p warn_days sched :
  Permutation sched (seq 0 (length hosts)) ->
  length (omap (task world hosts p warn_days) sched) = length hosts.
Proof.
  intros Hperm. rewrite <- (tasks_of_seq world hosts p warn_days).
  apply Permutation_length. rewrite Hperm. reflexivity.
Qed.

(** A batch that was returned, read off the schedule. *)
Lemma run_checks_inv world sched hosts p warn_days workers b :
  run_checks world sched hosts p warn_days workers = inr b ->
  df b = (omap (task world hosts p warn_days) sched).*2 /\
  progress_events b =
    ProgressNew 0 ::
    shown_from (Z.of_nat (length hosts)) 0
               (omap (task world hosts p warn_days) sched).*2 /\
  probe_calls b = concat (omap (task world hosts p warn_days) sched).*1.
Proof.
  unfold run_checks. destruct (workers <=? 0); [discriminate|].
  rewrite collect_all, submit_all_size. cbn zeta.
  cbn [results shown calls completed app]. change (fut_result world (submit_all hosts) p warn_days)
    with (task world hosts p warn_days).
  destruct ((omap (task world hosts p warn_days) sched).*2) as [|o os];
    [discriminate|].
  intros [= <-]. cbn [df progress_events probe_calls]. auto.
Qed.

(** [run_checks] returns for every batch the page lets through: at least one
    host and at least one worker. *)
Lemma run_checks_returns world sched hosts p warn_days workers :
  hosts <> [] -> 0 < workers ->
  Permutation sched (seq 0 (length hosts)) ->
  exists b, run_checks world sched hosts p warn_days workers = inr b /\
            length (df b) = length hosts.
Proof.
  intros Hne Hw Hperm.
  pose proof (tasks_of_schedule world hosts p warn_days sched Hperm) as Hlen.
  unfold run_checks. destruct (Z.leb_spec workers 0); [lia|].
  rewrite collect_all. cbn zeta. cbn [results shown calls completed app].
  change (fut_result world (submit_all hosts) p warn_days)
    with (task world hosts p warn_days).
  destruct ((omap (task world hosts p warn_days) sched).*2) as [|o os] eqn:E.
  - exfalso. apply (f_equal length) in E. rewrite length_fmap, Hlen in E.
    destruct hosts; [congruence|discriminate].
  - eexists. split; [reflexivity|]. cbn [df].
    rewrite <- E, length_fmap. exact Hlen.
Qed.

Lemma schedule_in_range (hosts : list string) sched :
  Permutation sched (seq 0 (length hosts)) ->
  Forall (fun fut => (fut < length hosts)%nat) sched.
Proof.
  intros Hperm. apply Forall_forall. intros fut Hin.
  rewrite Hperm in Hin. apply elem_of_seq in Hin. lia.
Qed.

Lemma rows_follow_schedule world hosts p warn_days sched :
  Forall (fun fut => (fut < length hosts)%nat) sched ->
  Forall2 (fun o fut => exists h, hosts !! fut = Some h /\
                                  o = probe_outcome (world fut) h p warn_days)
          (omap (task world hosts p warn_days) sched).*2 sched.
Proof.
  induction 1 as [|fut sched Hfut _ IH]; [constructor|].
  destruct (lookup_lt_is_Some_2 hosts fut Hfut) as [h Hh].
  cbn [omap list_omap]. rewrite (task_submitted _ _ _ _ _ _ Hh).
  cbn [fmap list_fmap]. constructor; [|exact IH].
  exists h. split; [exact Hh|reflexivity].
Qed.

Lemma hosts_of_rows world hosts p warn_days sched :
  host <$> (omap (task world hosts p warn_days) sched).*2
  = omap (fun fut => hosts !! fut) sched.
Proof.
  induction sched as [|fut sched IH]; [reflexivity|].
  cbn [omap list_omap]. unfold task at 1, fut_result.
  rewrite submit_all_lookup.
  destruct (hosts !! fut) as [h|]; cbn; [|exact IH].
  rewrite IH. f_equal. apply probe_outcome_host.
Qed.

Lemma omap_lookup_seq {A} (l : list A) (k : nat) :
  omap (fun i => l !! i) (seq k (length l - k)) = drop k l.
Proof.
  remember (length l - k)%nat as n eqn:En. revert k En.
  induction n as [|n IH]; intros k En.
  - cbn. symmetry. apply drop_ge. lia.
  - cbn [seq omap list_omap].
    destruct (lookup_lt_is_Some_2 l k ltac:(lia)) as [x Hx]. rewrite Hx.
    rewrite (drop_S _ _ _ Hx). f_equal. apply IH. lia.
Qed.

(** The hosts of the rows are the submitted hosts, each as often as it was
    submitted. *)
Lemma hosts_of_rows_permutation world hosts p warn_days sched :
  Permutation sched (seq 0 (length hosts)) ->
  Permutation (host <$> (omap (task world hosts p warn_days) sched).*2) hosts.
Proof.
  intros Hperm. rewrite hosts_of_rows, Hperm.
  pose proof (omap_lookup_seq hosts 0) as E.
  rewrite Nat.sub_0_r in E. rewrite E. reflexivity.
Qed.

(** C7. A batch with at least one host and one worker is returned whatever
    the probes do. Its rows are the outcomes of the submitted tasks, one for
    each, in the order of completion; the hosts of the rows are the submitted
    hosts; and a task whose probe raised contributes the ERROR row that
    carries the exception's string form. *)
Theorem failures_are_captured world sched hosts p warn_days workers :
  hosts <> [] -> 0 < workers ->
  Permutation sched (seq 0 (length hosts)) ->
  exists b,
    run_checks world sched hosts p warn_days workers = inr b /\
    length (df b) = length hosts /\
    Forall2 (fun o fut => exists h, hosts !! fut = Some h /\
                                    o = probe_outcome (world fut) h p warn_days)
            (df b) sched /\
    Permutation (host <$> df b) hosts /\
    (forall fut h x,
        hosts !! fut = Some h -> probed (world fut) h p = inl x ->
        {| host := h; port := p; expiry := None; days_left := None;
           status := ERROR; error := exc_str x |} ∈ df b).
Proof.
  intros Hne Hw Hperm.
  destruct (run_checks_returns world sched hosts p warn_days workers Hne Hw Hperm)
    as (b & Hrun & Hlen).
  destruct (run_checks_inv _ _ _ _ _ _ _ Hrun) as (Hdf & _ & _).
  exists b. split; [exact Hrun|]. split; [exact Hlen|]. rewrite Hdf.
  split; [apply rows_follow_schedule, schedule_in_range, Hperm|].
  split; [apply hosts_of_rows_permutation, Hperm|].
  intros fut h x Hh Hx.
  apply list_elem_of_fmap. exists (check_host (world fut) h p warn_days).
  split.
  - change (snd (check_host (world fut) h p warn_days))
      with (probe_outcome (world fut) h p warn_days).
    rewrite (probe_outcome_raised _ _ _ _ _ Hx). reflexivity.
  - apply list_elem_of_omap. exists fut. split.
    + rewrite Hperm. apply elem_of_seq.
      pose proof (lookup_lt_Some _ _ _ Hh). lia.
    + apply task_submitted, Hh.
Qed.

Lemma failures_are_captured_witness :
  exists b,
    run_checks three_hosts_world [2; 0; 1]%nat three_hosts 443 15 10 = inr b /\
    length (df b) = 3%nat /\
    {| host := "c.example"; port := 443; expiry := None; days_left := None;
       status := ERROR; error := "[Errno 111] Connection refused" |} ∈ df b.
Proof.
  destruct (failures_are_captured three_hosts_world [2; 0; 1]%nat three_hosts
              443 15 10)
    as (b & Hrun & Hlen & _ & _ & Herr).
  - discriminate.
  - reflexivity.
  - apply (Permutation_cons_app [0; 1]%nat [] 2%nat). reflexivity.
  - exists b. split; [exact Hrun|]. split; [exact Hlen|].
    apply (Herr 2%nat "c.example" connection_refused); reflexivity.
Defined.

(** *** The host list *)

(** The comprehension keeps the stripped lines that are not empty. *)
Lemma prepare_hosts_filter content :
  prepare_hosts content
  = filter (fun h => h <> "") (Str.strip <$> Str.splitlines content).
Proof.
  unfold prepare_hosts. induction (Str.splitlines content) as [|l ls IH];
    [reflexivity|].
  cbn [omap list_omap fmap list_fmap]. rewrite filter_cons, <- IH.
  destruct (Str.strip l); cbn [Str.truthy].
  - rewrite decide_False by (intros H; apply H; reflexivity). reflexivity.
  - rewrite decide_True by discriminate. reflexivity.
Qed.

Lemma length_remove_dups_le (l : list string) :
  (length (remove_dups l) <= length l)%nat.
Proof.
  induction l as [|x l IH]; [reflexivity|].
  cbn [remove_dups length]. destruct (decide_rel elem_of x l); cbn [length]; lia.
Qed.

Lemma length_remove_dups_eq (l : list string) :
  length (remove_dups l) = length l <-> NoDup l.
Proof.
  induction l as [|x l IH]; [split; [constructor|reflexivity]|].
  cbn [remove_dups length]. rewrite NoDup_cons.
  pose proof (length_remove_dups_le l).
  destruct (decide_rel elem_of x l) as [Hin|Hnin]; cbn [length].
  - split; [lia|]. intros [Hnin _]. contradiction.
  - split.
    + intros H1. split; [exact Hnin|]. apply IH. lia.
    + intros [_ Hnd]. f_equal. apply IH, Hnd.
Qed.

(** C3, as the code has it. A submission whose text is read, from the text
    area or from an upload that decodes, and holds at least one host gives one
    row for each line that is not blank once stripped, repeated hosts
    included; the number of rows is the number of distinct hosts exactly when
    no host is repeated. *)
Theorem one_row_per_submitted_line world sched decode hosts_input file_upload
    p warn_days workers content :
  submitted_text decode hosts_input file_upload = inr content ->
  prepare_hosts content <> [] -> 0 < workers ->
  Permutation sched (seq 0 (length (prepare_hosts content))) ->
  exists b,
    on_submit world sched decode hosts_input file_upload p warn_days workers
      = Report b /\
    submitted_hosts decode hosts_input file_upload
      = inr (prepare_hosts content) /\
    length (df b) = length (prepare_hosts content) /\
    length (df b)
      = length (filter (fun h => h <> "")
                  (Str.strip <$> Str.splitlines content)) /\
    (length (df b) = length (remove_dups (prepare_hosts content))
     <-> NoDup (prepare_hosts content)).
Proof.
  intros Htext Hne Hw Hperm.
  destruct (run_checks_returns world sched _ p warn_days workers Hne Hw Hperm)
    as (b & Hrun & Hlen).
  assert (submitted_hosts decode hosts_input file_upload
          = inr (prepare_hosts content)) as Hhosts.
  { unfold submitted_hosts. rewrite Htext. reflexivity. }
  exists b. split; [|split; [exact Hhosts|split; [exact Hlen|split]]].
  - unfold on_submit. rewrite Hhosts.
    destruct (prepare_hosts content) as [|h hs]; [congruence|].
    rewrite Hrun. reflexivity.
  - rewrite Hlen, prepare_hosts_filter. reflexivity.
  - rewrite Hlen. split.
    + intros E. apply length_remove_dups_eq. symmetry. exact E.
    + intros Hnd. symmetry. apply length_remove_dups_eq, Hnd.
Qed.

Lemma one_row_per_submitted_line_witness :
  exists b,
    on_submit three_hosts_world [2; 0; 1]%nat undecodable
      ("a.example" +:+ LF +:+ LF +:+ "  b.example  " +:+ LF +:+ "c.example")
      None 443 15 10 = Report b /\
    length (df b) = 3%nat.
Proof.
  destruct (one_row_per_submitted_line three_hosts_world [2; 0; 1]%nat
              undecodable
              ("a.example" +:+ LF +:+ LF +:+ "  b.example  " +:+ LF +:+ "c.example")
              None 443 15 10 _ eq_refl)
    as (b & Hrun & _ & Hlen & _).
  - vm_compute. discriminate.
  - reflexivity.
  - apply (Permutation_cons_app [0; 1]%nat [] 2%nat). reflexivity.
  - exists b. split; [exact Hrun|exact Hlen].
Defined.

(** C3, counterexample. The same host on two lines is probed twice and has
    two rows, while the submission names one distinct host. *)
Lemma repeated_host_has_two_rows :
  length <$> page_rows
    (on_submit (fun _ => just_expired) [0; 1]%nat undecodable
       ("old.example" +:+ LF +:+ "old.example") None 443 15 10)
    = Some 2%nat /\
  submitted_hosts undecodable ("old.example" +:+ LF +:+ "old.example") None
    = inr ["old.example"; "old.example"] /\
  length (remove_dups ["old.example"; "old.example"]) = 1%nat.
Proof. repeat split; vm_compute; reflexivity. Qed.

(** *** Progress *)

Lemma true_div_pos_den a (n : positive) : (true_div a (Z.pos n) == a # n)%Q.
Proof. unfold true_div. symmetry. apply Qmake_Qdiv. Qed.

Lemma true_div_le a b n : 0 < n -> a <= b -> (true_div a n <= true_div b n)%Q.
Proof.
  intros Hn Hab. destruct n as [|n|n]; try lia.
  rewrite !true_div_pos_den. unfold Qle. cbn [Qnum Qden]. nia.
Qed.

Lemma true_div_nonneg a n : 0 < n -> 0 <= a -> (0 <= true_div a n)%Q.
Proof.
  intros Hn Ha. destruct n as [|n|n]; try lia.
  rewrite true_div_pos_den. unfold Qle. cbn [Qnum Qden]. lia.
Qed.

Lemma true_div_same n : 0 < n -> (true_div n n == 1)%Q.
Proof.
  intros Hn. destruct n as [|n|n]; try lia.
  rewrite true_div_pos_den. unfold Qeq. cbn [Qnum Qden]. lia.
Qed.

Lemma true_div_le_1 a n : 0 < n -> a <= n -> (true_div a n <= 1)%Q.
Proof.
  intros Hn Ha. rewrite <- (true_div_same n Hn). apply true_div_le; assumption.
Qed.

Lemma progress_updates_shown_from total k os :
  progress_updates (shown_from total k os)
  = (fun j => true_div j total) <$> seqZ (k + 1) (Z.of_nat (length os)).
Proof.
  revert k. induction os as [|o os IH]; intros k; [reflexivity|].
  cbn [shown_from progress_updates omap list_omap length].
  rewrite seqZ_cons by lia. cbn [fmap list_fmap]. f_equal.
  fold (progress_updates (shown_from total (k + 1) os)). rewrite IH.
  f_equal. f_equal; lia.
Qed.

Lemma shown_from_snoc total k os o :
  shown_from total k (os ++ [o])
  = shown_from total k os ++
    [Appended o; ProgressSet (true_div (k + Z.of_nat (length os) + 1) total)].
Proof.
  revert k. induction os as [|o' os IH]; intros k.
  - cbn. rewrite Z.add_0_r. reflexivity.
  - cbn [shown_from app length]. rewrite IH. cbn [app].
    replace (k + 1 + Z.of_nat (length os) + 1)
      with (k + Z.of_nat (S (length os)) + 1) by lia.
    reflexivity.
Qed.

Lemma updates_lookup n i v :
  ((fun j => true_div j n) <$> seqZ 1 n) !! i = Some v ->
  v = true_div (1 + Z.of_nat i) n /\ 1 + Z.of_nat i <= n.
Proof.
  rewrite list_lookup_fmap. intros H.
  destruct (seqZ 1 n !! i) as [j|] eqn:E; [|discriminate].
  apply lookup_seqZ in E as [-> Hi]. injection H as <-. split; [reflexivity|lia].
Qed.

(** C4. For a batch of [n >= 1] hosts the values passed to the progress bar
    are [k / n] for [k = 1, ..., n] in this order; each lies between 0 and 1,
    they never decrease, and the last thing the loop does, right after it
    appended the last row, is to set the bar to [n / n = 1]. *)
Theorem progress_runs_up_to_one world sched hosts p warn_days workers :
  hosts <> [] -> 0 < workers ->
  Permutation sched (seq 0 (length hosts)) ->
  exists b,
    run_checks world sched hosts p warn_days workers = inr b /\
    progress_updates (progress_events b)
      = (fun k => true_div k (Z.of_nat (length hosts)))
          <$> seqZ 1 (Z.of_nat (length hosts)) /\
    Forall (fun v => 0 <= v /\ v <= 1)%Q (progress_updates (progress_events b)) /\
    nondecreasing (progress_updates (progress_events b)) /\
    exists before o v,
      progress_events b = before ++ [Appended o; ProgressSet v] /\
      last (df b) = Some o /\ (v == 1)%Q.
Proof.
  intros Hne Hw Hperm.
  destruct (run_checks_returns world sched hosts p warn_days workers Hne Hw Hperm)
    as (b & Hrun & Hlen).
  destruct (run_checks_inv _ _ _ _ _ _ _ Hrun) as (Hdf & Hev & _).
  rewrite <- Hdf in Hev.
  assert (0 < Z.of_nat (length hosts)) as Hn by (destruct hosts; [congruence|cbn; lia]).
  assert (progress_updates (progress_events b)
          = (fun k => true_div k (Z.of_nat (length hosts)))
              <$> seqZ 1 (Z.of_nat (length hosts))) as Hupd.
  { rewrite Hev. cbn [progress_updates omap list_omap].
    fold (progress_updates (shown_from (Z.of_nat (length hosts)) 0 (df b))).
    rewrite progress_updates_shown_from, Hlen. reflexivity. }
  exists b. split; [exact Hrun|]. split; [exact Hupd|]. rewrite Hupd.
  split; [|split].
  - apply Forall_lookup. intros i v Hv.
    apply updates_lookup in Hv as [-> Hi]. split.
    + apply true_div_nonneg; lia.
    + apply true_div_le_1; lia.
  - intros i j vi vj Hij Hi Hj.
    apply updates_lookup in Hi as [-> _]. apply updates_lookup in Hj as [-> _].
    apply true_div_le; lia.
  - destruct (df b) as [|x l _] using rev_ind.
    + destruct hosts; [congruence|discriminate Hlen].
    + exists (ProgressNew 0 :: shown_from (Z.of_nat (length hosts)) 0 l).
      exists x. eexists. rewrite Hev, shown_from_snoc. split; [reflexivity|].
      split; [apply last_snoc|].
      rewrite length_app in Hlen. cbn in Hlen.
      replace (0 + Z.of_nat (length l) + 1) with (Z.of_nat (length hosts)) by lia.
      apply true_div_same, Hn.
Qed.

Lemma progress_runs_up_to_one_witness :
  exists b,
    run_checks three_hosts_world [2; 0; 1]%nat three_hosts 443 15 10 = inr b /\
    progress_updates (progress_events b)
      = [true_div 1 3; true_div 2 3; true_div 3 3] /\
    nondecreasing (progress_updates (progress_events b)).
Proof.
  destruct (progress_runs_up_to_one three_hosts_world [2; 0; 1]%nat three_hosts
              443 15 10)
    as (b & Hrun & Hupd & _ & Hmono & _).
  - discriminate.
  - reflexivity.
  - apply (Permutation_cons_app [0; 1]%nat [] 2%nat). reflexivity.
  - exists b. split; [exact Hrun|]. split; [exact Hupd|exact Hmono].
Defined.

(** *** The connection timeout *)

(** A probe opens at most one connection: none when the TLS context cannot
    be made, and otherwise one, to its host and port, with the default timeout
    of the prober. *)
Lemma probe_log_connects w h p warn_days :
  filter is_connect (probe_log w h p warn_days)
  = match create_default_context w with
    | inr _ => [CreateConnection h p default_timeout]
    | inl _ => []
    end.
Proof.
  unfold probe_log, check_host, fetch_cert_expiry, cert_notAfter, bind, perform,
    ret, raise.
  destruct (create_default_context w) as [x|context]; [reflexivity|].
  destruct (create_connection w h p default_timeout) as [x|sock];
    [reflexivity|].
  destruct (wrap_socket w context sock h) as [x|ssock]; [reflexivity|].
  destruct (getpeercert w ssock !! "notAfter") as [text|]; [|reflexivity].
  destruct (strptime w text notAfter_format) as [x|e]; reflexivity.
Qed.

Lemma connects_of_tasks world hosts p warn_days sched :
  Forall (fun c => exists h, h ∈ hosts /\
                             c = CreateConnection h p default_timeout)
         (filter is_connect
            (concat (omap (task world hosts p warn_days) sched).*1)).
Proof.
  induction sched as [|fut sched IH]; [constructor|].
  cbn [omap list_omap].
  destruct (task world hosts p warn_days fut) as [r|] eqn:E; [|exact IH].
  apply task_Some_inv in E as (h & Hh & ->).
  cbn [fmap list_fmap concat]. rewrite filter_app. apply Forall_app.
  split; [|exact IH].
  change (fst (check_host (world fut) h p warn_days))
    with (probe_log (world fut) h p warn_days).
  rewrite probe_log_connects.
  destruct (create_default_context (world fut)); constructor; [|constructor].
  exists h. split; [|reflexivity]. apply list_elem_of_lookup. eauto.
Qed.

(** The connections of a batch, task by task in the order of completion. *)
Lemma connections_of_tasks world hosts p warn_days sched :
  filter is_connect (concat (omap (task world hosts p warn_days) sched).*1)
  = omap (connection_of world hosts p) sched.
Proof.
  induction sched as [|fut sched IH]; [reflexivity|].
  cbn [omap list_omap]. unfold connection_of at 1.
  destruct (task world hosts p warn_days fut) as [r|] eqn:E.
  - apply task_Some_inv in E as (h & Hh & ->). rewrite Hh.
    cbn [fmap list_fmap concat mbind option_bind]. rewrite filter_app, IH.
    change (fst (check_host (world fut) h p warn_days))
      with (probe_log (world fut) h p warn_days).
    rewrite probe_log_connects.
    destruct (create_default_context (world fut)); reflexivity.
  - unfold task, fut_result in E. rewrite submit_all_lookup in E.
    destruct (hosts !! fut) as [h|]; [discriminate E|]. exact IH.
Qed.

(** A probe asks the network for a connection with the default timeout, 5
    seconds, and with no other. *)
Lemma check_host_at_5_seconds w w' h p warn_days :
  same_at_5_seconds w w' ->
  check_host w h p warn_days = check_host w' h p warn_days.
Proof.
  intros (E1 & E2 & E3 & E4 & E5 & E6).
  unfold check_host, fetch_cert_expiry, cert_notAfter, bind, perform, ret,
    raise.
  change default_timeout with 5%Q. rewrite E1, E2, E6.
  destruct (create_default_context w') as [x|context]; [reflexivity|].
  destruct (create_connection w' h p 5%Q) as [x|sock]; [reflexivity|].
  rewrite E3. destruct (wrap_socket w' context sock h) as [x|ssock];
    [reflexivity|].
  rewrite E4. destruct (getpeercert w' ssock !! "notAfter") as [text|];
    [|reflexivity].
  rewrite E5. reflexivity.
Qed.

Lemma omap_pointwise {A B} (f g : A -> option B) (l : list A) :
  (forall x, f x = g x) -> omap f l = omap g l.
Proof.
  intros H. induction l as [|x l IH]; [reflexivity|].
  cbn [omap list_omap]. rewrite H, IH. reflexivity.
Qed.

Lemma run_checks_at_5_seconds world world' sched hosts p warn_days workers :
  (forall fut, same_at_5_seconds (world fut) (world' fut)) ->
  run_checks world sched hosts p warn_days workers
  = run_checks world' sched hosts p warn_days workers.
Proof.
  intros Hsame. unfold run_checks. destruct (workers <=? 0); [reflexivity|].
  rewrite !collect_all. cbn zeta.
  rewrite (omap_pointwise (fut_result world (submit_all hosts) p warn_days)
             (fut_result world' (submit_all hosts) p warn_days));
    [reflexivity|].
  intros fut. unfold fut_result.
  destruct (submit_all hosts !! fut) as [h|]; [|reflexivity].
  cbn [mbind option_bind]. f_equal. apply check_host_at_5_seconds, Hsame.
Qed.

(** C9. In every batch that [run_checks] returns, the connections opened are
    exactly one for each collected task whose TLS context could be made, in
    the order of completion, to the task's host, on the port of the batch and
    with a timeout of 5 seconds, the default of the prober. No other timeout
    is ever asked for, and no argument of [run_checks] reaches it: the batch
    is the same whatever the network would answer to a connection attempt
    with another timeout. *)
Theorem probes_use_default_timeout world sched hosts p warn_days workers b :
  run_checks world sched hosts p warn_days workers = inr b ->
  filter is_connect (probe_calls b)
    = omap (connection_of world hosts p) sched /\
  (forall fut h context,
      fut ∈ sched -> hosts !! fut = Some h ->
      create_default_context (world fut) = inr context ->
      CreateConnection h p 5%Q ∈ probe_calls b) /\
  (forall h' p' t,
      CreateConnection h' p' t ∈ probe_calls b ->
      t = 5%Q /\ p' = p /\ h' ∈ hosts) /\
  Forall (fun t => t = 5%Q) (omap timeout_of (probe_calls b)) /\
  (forall world',
      (forall fut, same_at_5_seconds (world fut) (world' fut)) ->
      run_checks world' sched hosts p warn_days workers = inr b).
Proof.
  intros Hrun. destruct (run_checks_inv _ _ _ _ _ _ _ Hrun) as (_ & _ & Hcalls).
  assert (filter is_connect (probe_calls b)
          = omap (connection_of world hosts p) sched) as Hexact.
  { rewrite Hcalls. apply connections_of_tasks. }
  pose proof (connects_of_tasks world hosts p warn_days sched) as Hconn.
  rewrite <- Hcalls in Hconn. rewrite Forall_forall in Hconn.
  assert (forall h' p' t,
             CreateConnection h' p' t ∈ probe_calls b ->
             t = 5%Q /\ p' = p /\ h' ∈ hosts) as Hall.
  { intros h' p' t Hin.
    destruct (Hconn (CreateConnection h' p' t)) as (h & Hh & E).
    - apply list_elem_of_filter. split; [exact I|exact Hin].
    - injection E as -> -> ->. auto. }
  split; [exact Hexact|]. split; [|split; [exact Hall|split]].
  - intros fut h context Hfut Hh Hctx.
    assert (CreateConnection h p 5%Q ∈ filter is_connect (probe_calls b)) as Hin.
    { rewrite Hexact. apply list_elem_of_omap. exists fut.
      split; [exact Hfut|]. unfold connection_of. rewrite Hh.
      cbn [mbind option_bind]. rewrite Hctx. reflexivity. }
    apply list_elem_of_filter in Hin as [_ Hin]. exact Hin.
  - apply Forall_forall. intros t Ht.
    apply list_elem_of_omap in Ht as (c & Hc & Hct).
    destruct c; try discriminate Hct. injection Hct as ->.
    apply (Hall _ _ _ Hc).
  - intros world' Hsame.
    rewrite <- (run_checks_at_5_seconds world world' _ _ _ _ _ Hsame).
    exact Hrun.
Qed.

Lemma probes_use_default_timeout_witness :
  exists b,
    run_checks three_hosts_world [2; 0; 1]%nat three_hosts 443 15 10 = inr b /\
    filter is_connect (probe_calls b)
      = [CreateConnection "c.example" 443 5; CreateConnection "a.example" 443 5;
         CreateConnection "b.example" 443 5] /\
    run_checks (fun fut => impatient (three_hosts_world fut)) [2; 0; 1]%nat
      three_hosts 443 15 10 = inr b.
Proof.
  eexists. split; [reflexivity|].
  pose proof (probes_use_default_timeout three_hosts_world [2; 0; 1]%nat
                three_hosts 443 15 10 _ eq_refl) as (Hexact & _ & _ & _ & Hsame).
  split; [exact Hexact|].
  apply Hsame. intros fut. repeat split.
Defined.

(** ** The histogram *)

Ltac case_edges :=
  repeat match goal with
         | |- context [?a <? ?b] =>
             let E := fresh "E" in
             destruct (Z.ltb_spec a b) as [E|E]; cbn [andb];
             try (exfalso; lia)
         | |- context [?a <=? ?b] =>
             let E := fresh "E" in
             destruct (Z.leb_spec a b) as [E|E]; cbn [andb];
             try (exfalso; lia)
         end.

Lemma cut_out_of_range x :
  x <= -999 \/ x > 9999 -> cut x bins labels = None.
Proof.
  intros Hx. unfold bins, labels. cbn [cut].
  case_edges; cbn [andb]; first [reflexivity | exfalso; lia].
Qed.

Lemma cut_in_range x :
  -999 < x <= 9999 -> exists name, cut x bins labels = Some name /\ name ∈ labels.
Proof.
  intros Hx. unfold bins, labels. cbn [cut].
  case_edges; cbn [andb]; try (exfalso; lia);
    eexists; (split; [reflexivity|]);
    repeat first [apply list_elem_of_here | apply list_elem_of_further].
Qed.

(** The buckets are the declared ones, in the declared order, whatever the
    rows are. *)
Lemma bucket_counts_labels rows : (bucket_counts rows).*1 = labels.
Proof. reflexivity. Qed.

Lemma value_counts_cons categories c column :
  counts_total (value_counts_sorted categories (c :: column))
  = (length (filter (fun name => c = Some name) categories)
     + counts_total (value_counts_sorted categories column))%nat.
Proof.
  unfold counts_total, value_counts_sorted.
  induction categories as [|name names IH]; [reflexivity|].
  cbn [map snd sum_list_with]. rewrite IH, !filter_cons. unfold id.
  destruct (decide (c = Some name)); cbn [length]; lia.
Qed.

Lemma one_label_per_name name :
  name ∈ labels -> length (filter (fun n => Some name = Some n) labels) = 1%nat.
Proof.
  unfold labels. rewrite !elem_of_cons, elem_of_nil.
  intros [->|[->|[->|[->|[->|[->|[]]]]]]]; reflexivity.
Qed.

Lemma bucket_of_row o :
  length (filter (fun name => cut (fillna (-1) (days_left o)) bins labels
                              = Some name) labels)
  = if has_bucket o then 1%nat else 0%nat.
Proof.
  unfold has_bucket. case_edges; cbn [andb];
    try (rewrite cut_out_of_range by lia; reflexivity).
  destruct (cut_in_range _ (conj E E0)) as (name & -> & Hin).
  apply one_label_per_name, Hin.
Qed.

(** The counts add up to the number of rows that have a bucket. *)
Lemma bucket_counts_total rows :
  counts_total (bucket_counts rows) = length (filter has_bucket rows).
Proof.
  unfold bucket_counts. induction rows as [|o rows IH]; [reflexivity|].
  cbn [days_left_bucket map]. rewrite value_counts_cons, filter_cons.
  fold (days_left_bucket rows). rewrite IH, bucket_of_row.
  destruct (has_bucket o).
  - rewrite decide_True by exact I. reflexivity.
  - rewrite decide_False by (intros []). reflexivity.
Qed.

(** When every row lies in the range of the edges the counts add up to the
    number of rows; an ERROR row does, with its days left filled by [-1], and
    falls in the first bucket. *)
Lemma bucket_counts_total_in_range rows :
  Forall (fun o => -999 < fillna (-1) (days_left o) <= 9999) rows ->
  counts_total (bucket_counts rows) = length rows.
Proof.
  intros H. rewrite bucket_counts_total. f_equal.
  induction H as [|o rows Ho _ IH]; [reflexivity|].
  rewrite filter_cons, IH. rewrite decide_True; [reflexivity|].
  unfold has_bucket. case_edges; cbn [andb]; first [exact I | lia].
Qed.

Lemma error_row_is_expired h p x :
  days_left_bucket [error_row h p x] = [Some "Expired"].
Proof. reflexivity. Qed.

(** The scenario of three hosts, the third one last to be submitted and first
    to complete: one row of each status, and the ERROR row counted with the
    expired certificates. *)
Example three_hosts_summary :
  exists b,
    run_checks three_hosts_world [2; 0; 1]%nat three_hosts 443 15 10 = inr b /\
    host <$> df b = ["c.example"; "a.example"; "b.example"] /\
    days_left <$> df b = [None; Some 200; Some 5] /\
    (count_status OK (df b), count_status WARNING (df b),
     count_status ERROR (df b)) = (1, 1, 1)%nat /\
    bucket_counts (df b)
      = [("Expired", 1%nat); ("0-7 days", 1%nat); ("8-30 days", 0%nat);
         ("31-90 days", 0%nat); ("91-365 days", 1%nat); (">365 days", 0%nat)].
Proof. eexists. split; [reflexivity|]. repeat split. Qed.

(** C10. A row whose days left, absent ones filled with [-1], are at most
    [-999] or more than [9999] gets no bucket, and the counts of a histogram
    over rows that hold such a row add up to less than the number of rows. *)
Theorem far_days_get_no_bucket rows o :
  o ∈ rows ->
  fillna (-1) (days_left o) <= -999 \/ fillna (-1) (days_left o) > 9999 ->
  cut (fillna (-1) (days_left o)) bins labels = None /\
  (counts_total (bucket_counts rows) < length rows)%nat.
Proof.
  intros Hin Hfar. split; [apply cut_out_of_range, Hfar|].
  rewrite bucket_counts_total. apply (length_filter_lt _ _ o Hin).
  unfold has_bucket. case_edges; cbn [andb]; try (intros []); lia.
Qed.

Lemma far_days_get_no_bucket_witness :
  cut 10000 bins labels = None /\
  (counts_total
     (bucket_counts [probe_outcome just_expired "old.example" 443 15;
                     probe_outcome long_lived "vault.example" 443 15])
   < 2)%nat.
Proof.
  apply (far_days_get_no_bucket
           [probe_outcome just_expired "old.example" 443 15;
            probe_outcome long_lived "vault.example" 443 15]
           (probe_outcome long_lived "vault.example" 443 15)).
  - apply list_elem_of_further, list_elem_of_here.
  - right. vm_compute. reflexivity.
Defined.

(** C5, at the input where it fails. A host whose certificate runs 10000 days
    past the clock reading is probed, classified OK and kept as the one row of
    the batch, yet no bucket counts it: the six counts add up to 0. The
    buckets themselves are the declared ones in the declared order. *)
Theorem long_lived_row_is_not_counted :
  exists b,
    run_checks (fun _ => long_lived) [0%nat] ["vault.example"] 443 15 10
      = inr b /\
    days_left <$> df b = [Some 10000] /\
    status <$> df b = [OK] /\
    length (df b) = 1%nat /\
    bucket_counts (df b)
      = [("Expired", 0%nat); ("0-7 days", 0%nat); ("8-30 days", 0%nat);
         ("31-90 days", 0%nat); ("91-365 days", 0%nat); (">365 days", 0%nat)] /\
    counts_total (bucket_counts (df b)) = 0%nat.
Proof. eexists. split; [reflexivity|]. repeat split. Qed.

(** * Further properties *)

(** ** Stripping and splitting *)

Lemma lstrip_blank s : Str.lstrip s = "" <-> blank s = true.
Proof.
  unfold blank. induction s as [|c s IH]; [split; reflexivity|].
  cbn [Str.lstrip all_chars]. destruct (Str.isspace c); cbn [andb].
  - exact IH.
  - split; discriminate.
Qed.

Lemma lstrip_head s c rest :
  Str.lstrip s = String c rest -> Str.isspace c = false.
Proof.
  induction s as [|c' s IH]; [discriminate|].
  cbn [Str.lstrip]. destruct (Str.isspace c') eqn:E; [exact IH|].
  intros [= <- _]. exact E.
Qed.

Lemma lstrip_fixed c rest :
  Str.isspace c = false -> Str.lstrip (String c rest) = String c rest.
Proof. intros E. cbn [Str.lstrip]. rewrite E. reflexivity. Qed.

Lemma rstrip_blank s : Str.rstrip s = "" <-> blank s = true.
Proof.
  unfold blank. induction s as [|c s IH]; [split; reflexivity|].
  cbn [Str.rstrip all_chars].
  destruct (Str.rstrip s) as [|k kept].
  - rewrite (proj1 IH eq_refl), andb_true_r.
    destruct (Str.isspace c); split; try reflexivity; discriminate.
  - split; [discriminate|]. intros H. apply andb_true_iff in H as [_ H].
    apply IH in H. discriminate H.
Qed.

Lemma rstrip_head c rest :
  Str.isspace c = false ->
  exists kept, Str.rstrip (String c rest) = String c kept.
Proof.
  intros E. cbn [Str.rstrip]. destruct (Str.rstrip rest) as [|k kept].
  - rewrite E. eauto.
  - eauto.
Qed.

Lemma rstrip_idem s : Str.rstrip (Str.rstrip s) = Str.rstrip s.
Proof.
  induction s as [|c s IH]; [reflexivity|].
  cbn [Str.rstrip]. destruct (Str.rstrip s) as [|k kept] eqn:E.
  - destruct (Str.isspace c) eqn:Ec; [reflexivity|].
    cbn [Str.rstrip]. rewrite Ec. reflexivity.
  - cbn [Str.rstrip]. cbn [Str.rstrip] in IH. rewrite IH. reflexivity.
Qed.

Lemma strip_idem s : Str.strip (Str.strip s) = Str.strip s.
Proof.
  unfold Str.strip. destruct (Str.lstrip s) as [|c rest] eqn:E; [reflexivity|].
  pose proof (lstrip_head _ _ _ E) as Ec.
  destruct (rstrip_head c rest Ec) as [kept Hk].
  rewrite Hk, (lstrip_fixed _ _ Ec), <- Hk. apply rstrip_idem.
Qed.

Lemma strip_blank s : Str.strip s = "" <-> blank s = true.
Proof.
  unfold Str.strip. split.
  - intros H. apply rstrip_blank in H.
    destruct (Str.lstrip s) as [|c rest] eqn:E; [apply lstrip_blank, E|].
    unfold blank in H. cbn [all_chars] in H.
    rewrite (lstrip_head _ _ _ E) in H. discriminate H.
  - intros H. apply lstrip_blank in H. rewrite H. reflexivity.
Qed.

Lemma all_chars_lstrip P s :
  all_chars P s = true -> all_chars P (Str.lstrip s) = true.
Proof.
  induction s as [|c s IH]; [reflexivity|].
  cbn [Str.lstrip]. destruct (Str.isspace c); [|exact id].
  cbn [all_chars]. intros H. apply andb_true_iff in H as [_ H]. exact (IH H).
Qed.

Lemma all_chars_rstrip P s :
  all_chars P s = true -> all_chars P (Str.rstrip s) = true.
Proof.
  induction s as [|c s IH]; [reflexivity|].
  cbn [all_chars Str.rstrip]. intros H. apply andb_true_iff in H as [Hc H].
  specialize (IH H). destruct (Str.rstrip s) as [|k kept].
  - destruct (Str.isspace c); [reflexivity|]. cbn [all_chars].
    rewrite Hc. reflexivity.
  - cbn [all_chars] in *. rewrite Hc, IH. reflexivity.
Qed.

Lemma all_chars_strip P s :
  all_chars P s = true -> all_chars P (Str.strip s) = true.
Proof. intros H. apply all_chars_rstrip, all_chars_lstrip, H. Qed.

Lemma all_chars_rev_acc P acc s :
  all_chars P (Str.rev_acc acc s) = all_chars P acc && all_chars P s.
Proof.
  revert acc. induction s as [|c s IH]; intros acc; cbn [Str.rev_acc all_chars].
  - rewrite andb_true_r. reflexivity.
  - rewrite IH. cbn [all_chars]. destruct (P c), (all_chars P acc); reflexivity.
Qed.

Lemma rev_acc_rev_acc acc acc' h :
  Str.rev_acc acc' (Str.rev_acc acc h) = Str.rev_acc (h +:+ acc') acc.
Proof.
  revert acc acc'. induction h as [|c h IH]; intros acc acc'; [reflexivity|].
  cbn [Str.rev_acc]. rewrite IH. reflexivity.
Qed.

Lemma append_empty_r (s : string) : s +:+ "" = s.
Proof.
  induction s as [|c s IH]; [reflexivity|].
  change (String c (s +:+ "") = String c s). f_equal. exact IH.
Qed.

Lemma rev_acc_twice h : Str.rev_acc "" (Str.rev_acc "" h) = h.
Proof. rewrite rev_acc_rev_acc. cbn [Str.rev_acc]. apply append_empty_r. Qed.

Lemma splitlines_from_one_line n : forall s cur,
  (String.length s <= n)%nat ->
  one_line (default "" cur) = true ->
  Forall (fun l => one_line l = true) (Str.splitlines_from cur s).
Proof.
  unfold one_line.
  induction n as [|n IH]; intros s cur Hlen Hcur.
  - destruct s; [|cbn in Hlen; lia].
    destruct cur as [line|]; cbn [Str.splitlines_from]; constructor;
      [|constructor].
    rewrite all_chars_rev_acc. exact Hcur.
  - destruct s as [|c rest].
    + destruct cur as [line|]; cbn [Str.splitlines_from]; constructor;
        [|constructor].
      rewrite all_chars_rev_acc. exact Hcur.
    + cbn [String.length] in Hlen. cbn [Str.splitlines_from].
      destruct (Str.is_linebreak c) eqn:Ec.
      * constructor; [rewrite all_chars_rev_acc; exact Hcur|].
        destruct rest as [|c' rest']; [apply IH; [lia|reflexivity]|].
        destruct (Str.is_cr c && Str.is_lf c').
        -- apply IH; [cbn [String.length] in *; lia|reflexivity].
        -- apply IH; [lia|reflexivity].
      * apply IH; [lia|].
        change (negb (Str.is_linebreak c)
                && all_chars (fun c => negb (Str.is_linebreak c))
                     (default "" cur) = true).
        rewrite Ec. exact Hcur.
Qed.

(** No line of [splitlines] holds a line boundary. *)
Lemma splitlines_one_line s :
  Forall (fun l => one_line l = true) (Str.splitlines s).
Proof.
  apply (splitlines_from_one_line (String.length s)); [lia|reflexivity].
Qed.

Lemma splitlines_from_line h : forall cur s,
  one_line h = true -> h <> "" ->
  Str.splitlines_from cur (h +:+ s)
  = Str.splitlines_from (Some (Str.rev_acc (default "" cur) h)) s.
Proof.
  unfold one_line. induction h as [|c h IH]; intros cur s Hh Hne; [congruence|].
  cbn [all_chars] in Hh. apply andb_true_iff in Hh as [Hc Hh].
  apply negb_true_iff in Hc.
  change (String c h +:+ s) with (String c (h +:+ s)).
  cbn [Str.splitlines_from]. rewrite Hc.
  destruct h as [|c' h'].
  - reflexivity.
  - rewrite IH by (auto; discriminate). reflexivity.
Qed.

Lemma splitlines_from_LF acc rest :
  Str.splitlines_from (Some acc) (LF +:+ rest)
  = Str.rev_acc "" acc :: Str.splitlines_from None rest.
Proof. destruct rest; reflexivity. Qed.

Lemma splitlines_join hosts :
  Forall (fun h => h <> "" /\ one_line h = true) hosts ->
  Str.splitlines (String.concat LF hosts) = hosts.
Proof.
  unfold Str.splitlines.
  induction 1 as [|h hosts [Hne Hone] _ IH]; [reflexivity|].
  cbn [String.concat]. destruct hosts as [|h' hosts'].
  - rewrite <- (append_empty_r h) at 1.
    rewrite (splitlines_from_line h None "" Hone Hne).
    cbn [Str.splitlines_from default]. rewrite rev_acc_twice. reflexivity.
  - change (String.append h (String.append LF (String.concat LF (h' :: hosts'))))
      with (h +:+ (LF +:+ String.concat LF (h' :: hosts'))).
    rewrite (splitlines_from_line h None _ Hone Hne), splitlines_from_LF.
    cbn [default]. rewrite rev_acc_twice, IH. reflexivity.
Qed.

Lemma prepare_hosts_clean content :
  Forall clean_host (prepare_hosts content).
Proof.
  rewrite prepare_hosts_filter. apply Forall_forall. intros h Hh.
  apply list_elem_of_filter in Hh as [Hne Hh].
  apply list_elem_of_fmap in Hh as (l & -> & Hl).
  split; [exact Hne|]. split; [apply strip_idem|].
  apply all_chars_strip.
  pose proof (splitlines_one_line content) as Hall.
  rewrite Forall_forall in Hall. apply Hall, Hl.
Qed.

Lemma prepare_hosts_join hosts :
  Forall clean_host hosts -> prepare_hosts (String.concat LF hosts) = hosts.
Proof.
  intros Hclean. unfold prepare_hosts. rewrite splitlines_join.
  - induction Hclean as [|h hosts (Hne & Hstrip & _) _ IH]; [reflexivity|].
    cbn [omap list_omap]. rewrite Hstrip, IH.
    destruct h; [congruence|reflexivity].
  - eapply Forall_impl; [exact Hclean|]. intros h (Hne & _ & Hone). auto.
Qed.

(** X1. The hosts passed on are the stripped lines of the input that are not
    blank, in the order of the input: a line is dropped exactly when it holds
    nothing but whitespace. *)
Theorem blank_lines_are_dropped content :
  prepare_hosts content
  = Str.strip <$> filter (fun l => blank l = false) (Str.splitlines content).
Proof.
  unfold prepare_hosts.
  induction (Str.splitlines content) as [|l ls IH]; [reflexivity|].
  cbn [omap list_omap]. rewrite filter_cons, IH.
  destruct (Str.strip l) as [|c rest] eqn:E; cbn [Str.truthy].
  - apply strip_blank in E. rewrite decide_False by congruence. reflexivity.
  - assert (blank l = false) as Hb.
    { destruct (blank l) eqn:Hb; [|reflexivity].
      apply strip_blank in Hb. congruence. }
    rewrite decide_True by exact Hb. cbn [fmap list_fmap]. rewrite E.
    reflexivity.
Qed.

(** X2. Every host passed on is non-empty, has no whitespace left at either
    end and holds no line boundary. *)
Theorem prepared_hosts_are_clean content :
  Forall (fun h => h <> "" /\ Str.strip h = h /\ one_line h = true)
         (prepare_hosts content).
Proof. apply prepare_hosts_clean. Qed.

(** X3. Hosts that are non-empty, stripped and free of line boundaries,
    written one per line, are read back as they are: same hosts, same order,
    repetitions kept. *)
Theorem clean_hosts_round_trip hosts :
  Forall (fun h => h <> "" /\ Str.strip h = h /\ one_line h = true) hosts ->
  prepare_hosts (String.concat LF hosts) = hosts.
Proof. apply prepare_hosts_join. Qed.

Lemma clean_hosts_round_trip_witness :
  prepare_hosts (String.concat LF ["a.example"; "b.example"; "a.example"])
  = ["a.example"; "b.example"; "a.example"].
Proof.
  apply (clean_hosts_round_trip ["a.example"; "b.example"; "a.example"]).
  repeat constructor; discriminate.
Defined.

(** X4. Preparing the hosts a second time changes nothing: the prepared list,
    written one host per line, prepares to itself. *)
Theorem prepare_hosts_idempotent content :
  prepare_hosts (String.concat LF (prepare_hosts content))
  = prepare_hosts content.
Proof. apply prepare_hosts_join, prepare_hosts_clean. Qed.

(** ** More on one probe *)

(** X5. The prober returns an expiry exactly when all five steps succeed:
    the TLS context, the connection with the timeout it was given, the
    handshake under the host's name, the [notAfter] entry of the certificate
    and the parsing of its text; its calls are then these five, in this
    order. *)
Theorem fetch_cert_expiry_success w h p t e :
  snd (fetch_cert_expiry w h p t) = inr e <->
  exists context sock ssock text,
    create_default_context w = inr context /\
    create_connection w h p t = inr sock /\
    wrap_socket w context sock h = inr ssock /\
    getpeercert w ssock !! "notAfter" = Some text /\
    strptime w text notAfter_format = inr e /\
    fst (fetch_cert_expiry w h p t)
      = [CreateDefaultContext; CreateConnection h p t;
         WrapSocket context sock h; GetPeerCert ssock;
         Strptime text notAfter_format].
Proof.
  unfold fetch_cert_expiry, cert_notAfter, bind, perform, ret, raise.
  destruct (create_default_context w) as [x|context] eqn:E1.
  { split; [discriminate|]. intros (? & ? & ? & ? & H & _). discriminate H. }
  destruct (create_connection w h p t) as [x|sock] eqn:E2.
  { split; [discriminate|]. intros (? & ? & ? & ? & _ & H & _). discriminate H. }
  destruct (wrap_socket w context sock h) as [x|ssock] eqn:E3.
  { split; [discriminate|].
    intros (? & ? & ? & ? & [= <-] & [= <-] & H & _). congruence. }
  destruct (getpeercert w ssock !! "notAfter") as [text|] eqn:E4.
  2:{ split; [discriminate|].
      intros (? & ? & ? & ? & [= <-] & [= <-] & H & H' & _). congruence. }
  destruct (strptime w text notAfter_format) as [x|e'] eqn:E5.
  { split; [discriminate|].
    intros (? & ? & ? & ? & [= <-] & [= <-] & H & H' & H'' & _). congruence. }
  cbn [fst snd app]. split.
  - intros [= <-]. exists context, sock, ssock, text. auto 10.
  - intros (? & ? & ? & ? & [= <-] & [= <-] & H & H' & H'' & _). congruence.
Qed.

(** X6. A certificate without a [notAfter] entry makes the probe stop after
    the certificate was read, with [KeyError]: nothing is parsed, the clock is
    not read, and the outcome is an ERROR whose text is the quoted key. *)
Theorem missing_notAfter_is_an_error w h p warn_days context sock ssock :
  create_default_context w = inr context ->
  create_connection w h p default_timeout = inr sock ->
  wrap_socket w context sock h = inr ssock ->
  getpeercert w ssock !! "notAfter" = None ->
  probe_outcome w h p warn_days
    = {| host := h; port := p; expiry := None; days_left := None;
         status := ERROR; error := "'notAfter'" |} /\
  probe_log w h p warn_days
    = [CreateDefaultContext; CreateConnection h p default_timeout;
       WrapSocket context sock h; GetPeerCert ssock].
Proof.
  intros E1 E2 E3 E4.
  unfold probe_outcome, probe_log, check_host, fetch_cert_expiry,
    cert_notAfter, bind, perform, ret, raise.
  rewrite E1, E2, E3, E4. split; reflexivity.
Qed.

Lemma missing_notAfter_is_an_error_witness :
  probe_outcome without_notAfter "bare.example" 443 15
    = {| host := "bare.example"; port := 443; expiry := None;
         days_left := None; status := ERROR; error := "'notAfter'" |} /\
  probe_log without_notAfter "bare.example" 443 15
    = [CreateDefaultContext; CreateConnection "bare.example" 443 5;
       WrapSocket 1%nat 3%nat "bare.example"; GetPeerCert 3%nat].
Proof.
  apply (missing_notAfter_is_an_error without_notAfter "bare.example" 443 15
           1%nat 3%nat 3%nat); reflexivity.
Defined.

(** The calls of [check_host]: those of the prober and, after a successful
    probe only, one reading of the clock. *)
Lemma check_host_cases w h p warn_days :
  check_host w h p warn_days =
    match fetch_cert_expiry w h p default_timeout with
    | (log, inr e) => (log ++ [UtcNow], success_row w h p warn_days e)
    | (log, inl x) => (log, error_row h p x)
    end.
Proof.
  unfold check_host, bind, perform, ret.
  destruct (fetch_cert_expiry w h p default_timeout) as [log [x|e]];
    [reflexivity|].
  cbn. rewrite ?app_nil_r. reflexivity.
Qed.

Lemma fetch_log_calls w h p t c :
  c ∈ fst (fetch_cert_expiry w h p t) ->
  c = CreateDefaultContext \/ c = CreateConnection h p t \/
  (exists context sock,
     c = WrapSocket context sock h /\
     create_default_context w = inr context /\
     create_connection w h p t = inr sock) \/
  (exists ssock, c = GetPeerCert ssock) \/
  (exists text, c = Strptime text notAfter_format).
Proof.
  unfold fetch_cert_expiry, cert_notAfter, bind, perform, ret, raise.
  destruct (create_default_context w) as [x|context] eqn:E1;
    [|destruct (create_connection w h p t) as [x|sock] eqn:E2;
      [|destruct (wrap_socket w context sock h) as [x|ssock] eqn:E3;
        [|destruct (getpeercert w ssock !! "notAfter") as [text|] eqn:E4;
          [destruct (strptime w text notAfter_format) as [x|e] eqn:E5|]]]];
    cbn [fst app]; intros H;
    repeat (apply elem_of_cons in H as [->|H]; [eauto 10|]);
    apply elem_of_nil in H; destruct H.
Qed.

(** X7. Whenever a probe starts a handshake, it does so under the name of
    the probed host and on the socket that was just connected to it with the
    default timeout. *)
Theorem handshake_names_the_host w h p warn_days context sock name :
  WrapSocket context sock name ∈ probe_log w h p warn_days ->
  name = h /\
  create_default_context w = inr context /\
  create_connection w h p default_timeout = inr sock.
Proof.
  unfold probe_log. rewrite check_host_cases.
  destruct (fetch_cert_expiry w h p default_timeout) as [log r] eqn:E.
  assert (WrapSocket context sock name ∈ log ->
          name = h /\ create_default_context w = inr context /\
          create_connection w h p default_timeout = inr sock) as Hlog.
  { intros Hin. change log with (fst (log, r)) in Hin. rewrite <- E in Hin.
    apply fetch_log_calls in Hin
      as [H|[H|[(c' & s' & H & H1 & H2)|[(? & H)|(? & H)]]]];
      try discriminate H.
    injection H as -> -> ->. auto. }
  destruct r as [x|e]; cbn [fst]; [exact Hlog|].
  intros Hin. apply elem_of_app in Hin as [Hin|Hin]; [exact (Hlog Hin)|].
  apply list_elem_of_singleton in Hin. discriminate Hin.
Qed.

Lemma handshake_names_the_host_witness :
  "b.example" = "b.example" /\
  create_default_context (three_hosts_world 1) = inr 1%nat /\
  create_connection (three_hosts_world 1) "b.example" 443 default_timeout
    = inr 3%nat.
Proof.
  apply (handshake_names_the_host (three_hosts_world 1) "b.example" 443 15
           1%nat 3%nat "b.example").
  apply list_elem_of_further, list_elem_of_further, list_elem_of_here.
Defined.

(** X8. The clock is read exactly in the probes that do not end in ERROR: a
    failed probe never reads it. *)
Theorem clock_is_read_iff_no_error w h p warn_days :
  UtcNow ∈ probe_log w h p warn_days
  <-> status (probe_outcome w h p warn_days) <> ERROR.
Proof.
  unfold probe_log, probe_outcome. rewrite check_host_cases.
  destruct (fetch_cert_expiry w h p default_timeout) as [log r] eqn:E.
  assert (UtcNow ∉ log) as Hno.
  { intros Hin. change log with (fst (log, r)) in Hin. rewrite <- E in Hin.
    apply fetch_log_calls in Hin
      as [H|[H|[(? & ? & H & _)|[(? & H)|(? & H)]]]]; discriminate H. }
  destruct r as [x|e]; cbn [fst snd].
  - split; [intros Hin; contradiction|]. intros H. exfalso. apply H. reflexivity.
  - split.
    + intros _. unfold success_row. cbn [status].
      destruct (days (datetime_sub e (utcnow w)) >? warn_days); discriminate.
    + intros _. apply elem_of_app. right. apply list_elem_of_here.
Qed.

(** X9. Raising the warning threshold can turn an OK into a WARNING and
    nothing else: warnings stay warnings, errors stay errors, and expiry,
    days left and error text do not depend on the threshold. *)
Theorem raising_threshold_only_adds_warnings w h p warn1 warn2 :
  warn1 <= warn2 ->
  (status (probe_outcome w h p warn1) = WARNING
     -> status (probe_outcome w h p warn2) = WARNING) /\
  (status (probe_outcome w h p warn2) = OK
     -> status (probe_outcome w h p warn1) = OK) /\
  (status (probe_outcome w h p warn1) = ERROR
     <-> status (probe_outcome w h p warn2) = ERROR) /\
  expiry (probe_outcome w h p warn1) = expiry (probe_outcome w h p warn2) /\
  days_left (probe_outcome w h p warn1) = days_left (probe_outcome w h p warn2) /\
  error (probe_outcome w h p warn1) = error (probe_outcome w h p warn2).
Proof.
  intros Hle. rewrite !probe_outcome_cases.
  destruct (probed w h p) as [x|e].
  - cbn. repeat split; auto; discriminate.
  - unfold success_row. cbn [status expiry days_left error].
    generalize (days (datetime_sub e (utcnow w))). intros d.
    destruct (Z.gtb_spec d warn1), (Z.gtb_spec d warn2);
      repeat split; intros; try reflexivity; try congruence; lia.
Qed.

Lemma raising_threshold_only_adds_warnings_witness :
  (status (probe_outcome (three_hosts_world 1) "b.example" 443 3) = WARNING
     -> status (probe_outcome (three_hosts_world 1) "b.example" 443 15)
        = WARNING) /\
  (status (probe_outcome (three_hosts_world 1) "b.example" 443 15) = OK
     -> status (probe_outcome (three_hosts_world 1) "b.example" 443 3) = OK).
Proof.
  destruct (raising_threshold_only_adds_warnings (three_hosts_world 1)
              "b.example" 443 3 15) as (H1 & H2 & _).
  - lia.
  - split; [exact H1|exact H2].
Defined.

Lemma floor_negative x d : 0 < d -> (x / d < 0 <-> x < 0).
Proof. intros Hd. pose proof (floor_bounds x d Hd). split; intros; nia. Qed.

(** X10. After a successful probe the days left are negative exactly when
    the certificate's expiry lies before the clock reading. *)
Theorem negative_days_left_iff_expired w h p warn_days e :
  probed w h p = inr e ->
  exists d,
    days_left (probe_outcome w h p warn_days) = Some d /\
    (d < 0 <-> to_micros e < to_micros (utcnow w)).
Proof.
  intros H. rewrite (probe_outcome_success _ _ _ _ _ H).
  unfold success_row. cbn [days_left]. eexists. split; [reflexivity|].
  rewrite datetime_sub_days, floor_negative by (unfold us_per_day; lia). lia.
Qed.

Lemma negative_days_left_iff_expired_witness :
  exists d,
    days_left (probe_outcome just_expired "old.example" 443 15) = Some d /\
    (d < 0 <-> to_micros (at_time 739923 11 0 0 0) < to_micros noon_2026_11_03).
Proof.
  exact (negative_days_left_iff_expired just_expired "old.example" 443 15
           (at_time 739923 11 0 0 0) eq_refl).
Defined.

(** X11. After a successful probe, when the expiry that was read lies before
    the reading of the clock, as for a certificate that lapses between the
    handshake and that reading, a threshold that is not negative, which the
    form enforces, gives WARNING and never OK. *)
Theorem expired_certificate_is_a_warning w h p warn_days e :
  probed w h p = inr e ->
  to_micros e < to_micros (utcnow w) ->
  0 <= warn_days ->
  status (probe_outcome w h p warn_days) = WARNING.
Proof.
  intros H Hexp Hwarn. rewrite (probe_outcome_success _ _ _ _ _ H).
  unfold success_row. cbn [status].
  destruct (Z.gtb_spec (days (datetime_sub e (utcnow w))) warn_days) as [Hgt|];
    [|reflexivity].
  rewrite datetime_sub_days in Hgt.
  assert ((to_micros e - to_micros (utcnow w)) / us_per_day < 0)
    by (apply floor_negative; [unfold us_per_day|]; lia).
  lia.
Qed.

Lemma expired_certificate_is_a_warning_witness :
  status (probe_outcome lapsed_during_probe "edge.example" 443 0) = WARNING.
Proof.
  apply (expired_certificate_is_a_warning lapsed_during_probe "edge.example"
           443 0 (at_time 739923 12 0 0 0)).
  - reflexivity.
  - vm_compute. reflexivity.
  - lia.
Defined.

(** X12. The difference of two datetimes is normalised: its seconds lie in
    [0, 86400) and its microseconds in [0, 1000000), whatever the sign of the
    difference, and days, seconds and microseconds together are exactly the
    distance between the two instants. *)
Theorem datetime_sub_normalised a b :
  0 <= seconds (datetime_sub a b) < 86400 /\
  0 <= microseconds (datetime_sub a b) < 1000000 /\
  (days (datetime_sub a b) * 86400 + seconds (datetime_sub a b)) * 1000000
    + microseconds (datetime_sub a b)
  = to_micros a - to_micros b.
Proof.
  unfold datetime_sub, mk_timedelta, to_micros.
  cbn [days seconds microseconds].
  set (d := toordinal a - toordinal b).
  set (s := second_of_day a - second_of_day b).
  set (u := microsecond a - microsecond b).
  replace ((toordinal a * 86400 + second_of_day a) * 1000000 + microsecond a
           - ((toordinal b * 86400 + second_of_day b) * 1000000 + microsecond b))
    with ((d * 86400 + s) * 1000000 + u) by (unfold d, s, u; ring).
  pose proof (Z.mod_pos_bound u 1000000 ltac:(lia)).
  pose proof (Z.mod_pos_bound (s + u / 1000000) 86400 ltac:(lia)).
  pose proof (Z.div_mod u 1000000 ltac:(lia)).
  pose proof (Z.div_mod (s + u / 1000000) 86400 ltac:(lia)).
  split; [assumption|]. split; [assumption|]. lia.
Qed.

(** ** More on the batch *)

Lemma run_checks_nonempty world sched hosts p warn_days workers b :
  run_checks world sched hosts p warn_days workers = inr b ->
  0 < workers /\ df b <> [].
Proof.
  unfold run_checks. destruct (Z.leb_spec workers 0); [discriminate|].
  destruct (results _) as [|o os]; [discriminate|].
  intros [= <-]. cbn [df]. split; [assumption|discriminate].
Qed.

Lemma tasks_of_no_hosts world p warn_days sched :
  omap (task world [] p warn_days) sched = [].
Proof. induction sched as [|fut sched IH]; [reflexivity|exact IH]. Qed.

Lemma rows_are_outcomes world sched hosts p warn_days workers b o :
  run_checks world sched hosts p warn_days workers = inr b ->
  o ∈ df b ->
  exists fut h, hosts !! fut = Some h /\
                o = probe_outcome (world fut) h p warn_days.
Proof.
  intros Hrun Ho. destruct (run_checks_inv _ _ _ _ _ _ _ Hrun) as (Hdf & _ & _).
  rewrite Hdf in Ho. apply list_elem_of_fmap in Ho as (r & -> & Hr).
  apply list_elem_of_omap in Hr as (fut & _ & Hfut).
  apply task_Some_inv in Hfut as (h & Hh & ->).
  exists fut, h. split; [exact Hh|reflexivity].
Qed.

(** X13. With every future collected, [run_checks] returns a batch exactly
    when it is given at least one worker and at least one host. A worker
    count below one raises [ValueError] before anything else, and an empty
    host list raises [KeyError] on the missing [expiry] column. *)
Theorem run_checks_returns_iff world sched hosts p warn_days workers :
  Permutation sched (seq 0 (length hosts)) ->
  ((exists b, run_checks world sched hosts p warn_days workers = inr b)
     <-> 0 < workers /\ hosts <> []) /\
  (workers <= 0 ->
     run_checks world sched hosts p warn_days workers
     = inl {| exc_class := "ValueError";
              exc_str := "max_workers must be greater than 0" |}) /\
  (0 < workers -> hosts = [] ->
     run_checks world sched hosts p warn_days workers
     = inl {| exc_class := "KeyError"; exc_str := "'expiry'" |}).
Proof.
  intros Hperm. split; [split|split].
  - intros [b Hrun]. destruct (run_checks_nonempty _ _ _ _ _ _ _ Hrun) as [Hw Hne].
    split; [exact Hw|]. intros ->.
    destruct (run_checks_inv _ _ _ _ _ _ _ Hrun) as (Hdf & _ & _).
    rewrite tasks_of_no_hosts in Hdf. apply Hne, Hdf.
  - intros [Hw Hne].
    destruct (run_checks_returns world sched hosts p warn_days workers Hne Hw Hperm)
      as (b & Hrun & _).
    exists b. exact Hrun.
  - intros Hw. unfold run_checks. destruct (Z.leb_spec workers 0); [reflexivity|lia].
  - intros Hw ->. unfold run_checks. destruct (Z.leb_spec workers 0); [lia|].
    rewrite collect_all. cbn zeta. cbn [results app].
    change (fut_result world (submit_all []) p warn_days)
      with (task world [] p warn_days).
    rewrite tasks_of_no_hosts. reflexivity.
Qed.

Lemma run_checks_returns_iff_witness :
  (exists b, run_checks three_hosts_world [2; 0; 1]%nat three_hosts 443 15 10
             = inr b)
  <-> 0 < 10 /\ three_hosts <> [].
Proof.
  apply (run_checks_returns_iff three_hosts_world [2; 0; 1]%nat three_hosts
           443 15 10).
  apply (Permutation_cons_app [0; 1]%nat [] 2%nat). reflexivity.
Defined.

(** X14. Every row of a returned batch carries the port of the batch and one
    of its hosts; its status is ERROR exactly when it has no expiry, it has
    days left exactly when it has an expiry, and its error text is empty
    unless it is an ERROR. *)
Theorem rows_are_well_formed world sched hosts p warn_days workers b :
  run_checks world sched hosts p warn_days workers = inr b ->
  Forall (fun o =>
            port o = p /\ host o ∈ hosts /\
            (status o = ERROR <-> expiry o = None) /\
            (days_left o = None <-> expiry o = None) /\
            (status o <> ERROR -> error o = ""))
         (df b).
Proof.
  intros Hrun. apply Forall_forall. intros o Ho.
  destruct (rows_are_outcomes _ _ _ _ _ _ _ _ Hrun Ho) as (fut & h & Hh & ->).
  rewrite probe_outcome_cases.
  assert (h ∈ hosts) as Hin by (apply list_elem_of_lookup; eauto).
  destruct (probed (world fut) h p) as [x|e].
  - cbn. repeat split; auto. intros H. exfalso. apply H. reflexivity.
  - unfold success_row. cbn [port host status expiry days_left error].
    repeat split; auto; try discriminate.
    destruct (days (datetime_sub e (utcnow (world fut))) >? warn_days);
      discriminate.
Qed.

Lemma rows_are_well_formed_witness :
  Forall (fun o => port o = 443 /\ host o ∈ three_hosts)
         [probe_outcome (three_hosts_world 2) "c.example" 443 15;
          probe_outcome (three_hosts_world 0) "a.example" 443 15;
          probe_outcome (three_hosts_world 1) "b.example" 443 15].
Proof.
  eapply Forall_impl.
  - exact (rows_are_well_formed three_hosts_world [2; 0; 1]%nat three_hosts
             443 15 10 _ eq_refl).
  - intros o (Hp & Hh & _). split; [exact Hp|exact Hh].
Defined.

Lemma value_counts_permutation categories (c1 c2 : list (option string)) :
  Permutation c1 c2 ->
  value_counts_sorted categories c1 = value_counts_sorted categories c2.
Proof.
  intros Hperm. unfold value_counts_sorted.
  induction categories as [|name names IH]; [reflexivity|].
  cbn [map]. rewrite IH. do 2 f_equal.
  apply Permutation_length. rewrite Hperm. reflexivity.
Qed.

Lemma count_status_permutation s (r1 r2 : list outcome) :
  Permutation r1 r2 -> count_status s r1 = count_status s r2.
Proof.
  intros Hperm. unfold count_status. apply Permutation_length.
  rewrite Hperm. reflexivity.
Qed.

(** X15. The order in which the probes complete changes the order of the rows
    and nothing else: two complete runs over the same answers of the network
    have the same rows up to order, the same summary and the same histogram. *)
Theorem completion_order_does_not_matter world sched1 sched2 hosts p warn_days
    workers b1 b2 :
  Permutation sched1 (seq 0 (length hosts)) ->
  Permutation sched2 (seq 0 (length hosts)) ->
  run_checks world sched1 hosts p warn_days workers = inr b1 ->
  run_checks world sched2 hosts p warn_days workers = inr b2 ->
  Permutation (df b1) (df b2) /\
  summary (df b1) = summary (df b2) /\
  bucket_counts (df b1) = bucket_counts (df b2).
Proof.
  intros Hp1 Hp2 Hrun1 Hrun2.
  destruct (run_checks_inv _ _ _ _ _ _ _ Hrun1) as (Hdf1 & _ & _).
  destruct (run_checks_inv _ _ _ _ _ _ _ Hrun2) as (Hdf2 & _ & _).
  assert (Permutation (df b1) (df b2)) as Hperm.
  { rewrite Hdf1, Hdf2, Hp1, Hp2. reflexivity. }
  split; [exact Hperm|]. split.
  - unfold summary.
    rewrite (Permutation_length Hperm),
      (count_status_permutation OK _ _ Hperm),
      (count_status_permutation WARNING _ _ Hperm),
      (count_status_permutation ERROR _ _ Hperm).
    reflexivity.
  - unfold bucket_counts. apply value_counts_permutation.
    unfold days_left_bucket. apply Permutation_map, Hperm.
Qed.

Lemma completion_order_does_not_matter_witness :
  summary [probe_outcome (three_hosts_world 2) "c.example" 443 15;
           probe_outcome (three_hosts_world 0) "a.example" 443 15;
           probe_outcome (three_hosts_world 1) "b.example" 443 15]
  = summary [probe_outcome (three_hosts_world 0) "a.example" 443 15;
             probe_outcome (three_hosts_world 1) "b.example" 443 15;
             probe_outcome (three_hosts_world 2) "c.example" 443 15].
Proof.
  refine (proj1 (proj2 (completion_order_does_not_matter three_hosts_world
                          [2; 0; 1]%nat [0; 1; 2]%nat three_hosts 443 15 10
                          _ _ _ _ eq_refl eq_refl))).
  - apply (Permutation_cons_app [0; 1]%nat [] 2%nat). reflexivity.
  - reflexivity.
Defined.

Ltac edge_step :=
  match goal with
  | |- context [?a <? ?b] =>
      destruct (Z.ltb_spec a b); cbn [andb]; try (exfalso; lia)
  | |- context [?a <=? ?b] =>
      destruct (Z.leb_spec a b); cbn [andb]; try (exfalso; lia)
  end.

(** [pd.cut] over the bins of the page, read as a chain of comparisons. *)
Lemma cut_by_range x :
  cut x bins labels =
    if x <=? -999 then None
    else if x <=? 0 then Some "Expired"
    else if x <=? 7 then Some "0-7 days"
    else if x <=? 30 then Some "8-30 days"
    else if x <=? 90 then Some "31-90 days"
    else if x <=? 365 then Some "91-365 days"
    else if x <=? 9999 then Some ">365 days"
    else None.
Proof. unfold bins, labels. cbn [cut]. repeat edge_step; reflexivity. Qed.

(** X16. The three status counts of the summary add up to its total, for any
    rows. *)
Theorem summary_adds_up rows :
  match summary rows with
  | (total, ok, warnings, errors) => (ok + warnings + errors = total)%nat
  end.
Proof.
  unfold summary, count_status.
  induction rows as [|o rows IH]; [reflexivity|].
  rewrite !filter_cons. cbn [length].
  destruct (status o);
    repeat match goal with
           | |- context [decide (?a = ?b)] => destruct (decide (a = b))
           end;
    try congruence; cbn [length]; lia.
Qed.

(** X17. The six buckets by their ranges: [(-999, 0]] is Expired, so that a
    certificate with 0 days left counts as expired; [(0, 7]], [(7, 30]],
    [(30, 90]], [(90, 365]] and [(365, 9999]] follow; everything else has no
    bucket. *)
Theorem bucket_ranges x :
  (cut x bins labels = Some "Expired" <-> -999 < x <= 0) /\
  (cut x bins labels = Some "0-7 days" <-> 0 < x <= 7) /\
  (cut x bins labels = Some "8-30 days" <-> 7 < x <= 30) /\
  (cut x bins labels = Some "31-90 days" <-> 30 < x <= 90) /\
  (cut x bins labels = Some "91-365 days" <-> 90 < x <= 365) /\
  (cut x bins labels = Some ">365 days" <-> 365 < x <= 9999) /\
  (cut x bins labels = None <-> x <= -999 \/ 9999 < x).
Proof.
  rewrite cut_by_range.
  repeat match goal with
         | |- context [?a <=? ?b] =>
             destruct (Z.leb_spec a b);
             [repeat split; intros; first [reflexivity | lia | congruence] |]
         end.
  repeat split; intros; first [reflexivity | lia | congruence].
Qed.

Lemma cut_expired x : cut x bins labels = Some "Expired" <-> -999 < x <= 0.
Proof.
  rewrite cut_by_range.
  repeat match goal with
         | |- context [?a <=? ?b] =>
             destruct (Z.leb_spec a b);
             [split; intros; first [reflexivity | lia | congruence] |]
         end.
  split; intros; first [reflexivity | lia | congruence].
Qed.

Lemma rows_error_iff_no_days world sched hosts p warn_days workers b :
  run_checks world sched hosts p warn_days workers = inr b ->
  Forall (fun o => status o = ERROR <-> days_left o = None) (df b).
Proof.
  intros Hrun. apply Forall_forall. intros o Ho.
  destruct (rows_are_outcomes _ _ _ _ _ _ _ _ Hrun Ho) as (fut & h & _ & ->).
  rewrite probe_outcome_cases.
  destruct (probed (world fut) h p) as [x|e]; [split; reflexivity|].
  unfold success_row. cbn [status days_left]. split; [|discriminate].
  destruct (days (datetime_sub e (utcnow (world fut))) >? warn_days);
    discriminate.
Qed.

Lemma expired_bucket_of_row o :
  (status o = ERROR <-> days_left o = None) ->
  (if decide (cut (fillna (-1) (days_left o)) bins labels = Some "Expired")
   then 1 else 0)%nat
  = ((if decide (status o = ERROR) then 1 else 0)
     + (if decide (expired_in_range o) then 1 else 0))%nat.
Proof.
  intros Hinv. unfold expired_in_range.
  destruct (days_left o) as [d|].
  - change (fillna (-1) (Some d)) with d.
    pose proof (cut_expired d) as Hexp.
    rewrite (decide_False (P := status o = ERROR))
      by (intros H; apply Hinv in H; discriminate H).
    destruct (decide (cut d bins labels = Some "Expired")) as [H|H];
      destruct (decide (Is_true ((-999 <? d) && (d <=? 0)))) as [H'|H'];
      try reflexivity; exfalso.
    + apply Hexp in H. apply H'.
      destruct (Z.ltb_spec (-999) d), (Z.leb_spec d 0); cbn [andb];
        first [exact I | lia].
    + apply H, Hexp.
      destruct (Z.ltb_spec (-999) d), (Z.leb_spec d 0); cbn [andb] in H';
        first [lia | destruct H'].
  - rewrite (decide_True (P := status o = ERROR)) by (apply Hinv; reflexivity).
    rewrite decide_True by reflexivity.
    rewrite decide_False by (intros []). reflexivity.
Qed.

(** X18. In the histogram of a returned batch the first bucket, Expired,
    counts every ERROR row together with every certificate that has between
    [-998] and [0] days left. *)
Theorem expired_bucket_holds_the_errors world sched hosts p warn_days workers b :
  run_checks world sched hosts p warn_days workers = inr b ->
  bucket_counts (df b) !! 0%nat
  = Some ("Expired",
          (count_status ERROR (df b)
           + length (filter expired_in_range (df b)))%nat).
Proof.
  intros Hrun. pose proof (rows_error_iff_no_days _ _ _ _ _ _ _ Hrun) as Hwf.
  unfold bucket_counts, value_counts_sorted, labels. cbn [map lookup list_lookup].
  do 2 f_equal. unfold count_status.
  induction Hwf as [|o rows Hinv _ IH]; [reflexivity|].
  cbn [days_left_bucket map]. fold (days_left_bucket rows).
  rewrite !filter_cons.
  pose proof (expired_bucket_of_row o Hinv) as E.
  destruct (decide (cut (fillna (-1) (days_left o)) bins labels = Some "Expired"));
    destruct (decide (status o = ERROR));
    destruct (decide (expired_in_range o));
    cbn [length]; rewrite ?IH; cbn in E; lia.
Qed.

Lemma expired_bucket_holds_the_errors_witness :
  bucket_counts
    [probe_outcome (three_hosts_world 2) "c.example" 443 15;
     probe_outcome (three_hosts_world 0) "a.example" 443 15;
     probe_outcome (three_hosts_world 1) "b.example" 443 15] !! 0%nat
  = Some ("Expired", 1%nat).
Proof.
  exact (expired_bucket_holds_the_errors three_hosts_world [2; 0; 1]%nat
           three_hosts 443 15 10 _ eq_refl).
Defined.

(** X19. When every certificate that was read has more than [-999] and at
    most [9999] days left, the counts of the histogram of a complete batch add
    up to the number of hosts, whatever the number of ERROR rows. *)
Theorem histogram_covers_ordinary_batches world sched hosts p warn_days workers b :
  Permutation sched (seq 0 (length hosts)) ->
  run_checks world sched hosts p warn_days workers = inr b ->
  Forall (fun o => forall d, days_left o = Some d -> -999 < d <= 9999) (df b) ->
  counts_total (bucket_counts (df b)) = length hosts.
Proof.
  intros Hperm Hrun Hrange.
  destruct (run_checks_inv _ _ _ _ _ _ _ Hrun) as (Hdf & _ & _).
  rewrite bucket_counts_total_in_range.
  - rewrite Hdf, length_fmap. apply tasks_of_schedule, Hperm.
  - eapply Forall_impl; [exact Hrange|]. intros o Ho.
    destruct (days_left o) as [d|] eqn:E; [exact (Ho d E)|].
    change (fillna (-1) None) with (-1). lia.
Qed.

Lemma histogram_covers_ordinary_batches_witness :
  counts_total
    (bucket_counts
       [probe_outcome (three_hosts_world 2) "c.example" 443 15;
        probe_outcome (three_hosts_world 0) "a.example" 443 15;
        probe_outcome (three_hosts_world 1) "b.example" 443 15])
  = 3%nat.
Proof.
  refine (histogram_covers_ordinary_batches three_hosts_world [2; 0; 1]%nat
            three_hosts 443 15 10 _ _ eq_refl _).
  - apply (Permutation_cons_app [0; 1]%nat [] 2%nat). reflexivity.
  - constructor; [|constructor; [|constructor; [|constructor]]];
      intros d E; vm_compute in E;
      first [discriminate E | injection E as <-; lia].
Defined.

Lemma probe_log_contexts w h p warn_days :
  filter is_context (probe_log w h p warn_days) = [CreateDefaultContext].
Proof.
  unfold probe_log, check_host, fetch_cert_expiry, cert_notAfter, bind, perform,
    ret, raise.
  destruct (create_default_context w) as [x|context]; [reflexivity|].
  destruct (create_connection w h p default_timeout) as [x|sock];
    [reflexivity|].
  destruct (wrap_socket w context sock h) as [x|ssock]; [reflexivity|].
  destruct (getpeercert w ssock !! "notAfter") as [text|]; [|reflexivity].
  destruct (strptime w text notAfter_format) as [x|e]; reflexivity.
Qed.

Lemma calls_of_tasks world hosts p warn_days sched :
  length (filter is_context
            (concat (omap (task world hosts p warn_days) sched).*1))
  = length (omap (task world hosts p warn_days) sched) /\
  (length (filter is_connect
             (concat (omap (task world hosts p warn_days) sched).*1))
   <= length (omap (task world hosts p warn_days) sched))%nat.
Proof.
  induction sched as [|fut sched [IH1 IH2]]; [split; reflexivity|].
  cbn [omap list_omap].
  destruct (task world hosts p warn_days fut) as [r|] eqn:E; [|split; assumption].
  apply task_Some_inv in E as (h & _ & ->).
  cbn [fmap list_fmap concat length]. rewrite !filter_app, !length_app.
  change (fst (check_host (world fut) h p warn_days))
    with (probe_log (world fut) h p warn_days).
  rewrite probe_log_contexts, probe_log_connects, IH1.
  split; [reflexivity|].
  destruct (create_default_context (world fut)); cbn [length]; lia.
Qed.

(** X20. A returned batch makes one TLS context for each row and opens at
    most one connection for each row: no host is tried a second time. *)
Theorem no_host_is_retried world sched hosts p warn_days workers b :
  run_checks world sched hosts p warn_days workers = inr b ->
  length (filter is_context (probe_calls b)) = length (df b) /\
  (length (filter is_connect (probe_calls b)) <= length (df b))%nat.
Proof.
  intros Hrun.
  destruct (run_checks_inv _ _ _ _ _ _ _ Hrun) as (Hdf & _ & Hcalls).
  rewrite Hdf, Hcalls, length_fmap. apply calls_of_tasks.
Qed.

Lemma no_host_is_retried_witness :
  length (filter is_context
            [CreateDefaultContext; CreateConnection "c.example" 443 5;
             CreateDefaultContext; CreateConnection "a.example" 443 5;
             WrapSocket 1%nat 3%nat "a.example"; GetPeerCert 3%nat;
             Strptime "May 22 12:00:00 2027 GMT" notAfter_format; UtcNow;
             CreateDefaultContext; CreateConnection "b.example" 443 5;
             WrapSocket 1%nat 3%nat "b.example"; GetPeerCert 3%nat;
             Strptime "Nov  8 18:00:00 2026 GMT" notAfter_format; UtcNow])
  = 3%nat.
Proof.
  exact (proj1 (no_host_is_retried three_hosts_world [2; 0; 1]%nat three_hosts
                  443 15 10 _ eq_refl)).
Defined.

(** X21. Whichever step of the probe raises, be it the TLS context, the
    connection, the handshake or the parsing of the date, the outcome is the
    ERROR row with the string form of that exception. *)
Theorem stage_failure_is_reported w h p warn_days x :
  (create_default_context w = inl x \/
   exists context,
     create_default_context w = inr context /\
     (create_connection w h p default_timeout = inl x \/
      exists sock,
        create_connection w h p default_timeout = inr sock /\
        (wrap_socket w context sock h = inl x \/
         exists ssock text,
           wrap_socket w context sock h = inr ssock /\
           getpeercert w ssock !! "notAfter" = Some text /\
           strptime w text notAfter_format = inl x))) ->
  probe_outcome w h p warn_days
  = {| host := h; port := p; expiry := None; days_left := None;
       status := ERROR; error := exc_str x |}.
Proof.
  intros H. apply probe_outcome_raised, probe_failure_stages, H.
Qed.

Lemma stage_failure_is_reported_witness :
  probe_outcome (three_hosts_world 2) "c.example" 443 15
  = {| host := "c.example"; port := 443; expiry := None; days_left := None;
       status := ERROR; error := "[Errno 111] Connection refused" |}.
Proof.
  apply (stage_failure_is_reported (three_hosts_world 2) "c.example" 443 15
           connection_refused).
  right. exists 1%nat. split; [reflexivity|]. left. reflexivity.
Defined.

(** ** The page *)

(** X22. With at least one worker and every future collected, a submission
    ends in an exception exactly when the uploaded file cannot be decoded,
    since nothing handles that [UnicodeDecodeError]. When the text is read, a
    submission without a host asks for one and probes nothing, and any other
    reports one row for each host. *)
Theorem submission_outcomes world sched decode hosts_input file_upload
    p warn_days workers :
  0 < workers ->
  (forall hosts,
      submitted_hosts decode hosts_input file_upload = inr hosts ->
      Permutation sched (seq 0 (length hosts))) ->
  match submitted_text decode hosts_input file_upload with
  | inl e =>
      (exists raw, file_upload = Some raw /\ decode raw = inl e) /\
      on_submit world sched decode hosts_input file_upload p warn_days workers
      = Crashed e
  | inr content =>
      (prepare_hosts content = [] /\
       on_submit world sched decode hosts_input file_upload p warn_days workers
       = PleaseProvideHost) \/
      (prepare_hosts content <> [] /\
       exists b,
         on_submit world sched decode hosts_input file_upload p warn_days
           workers = Report b /\
         length (df b) = length (prepare_hosts content))
  end.
Proof.
  intros Hw Hperm. unfold on_submit. unfold submitted_hosts in *.
  destruct (submitted_text decode hosts_input file_upload) as [e|content] eqn:E.
  - split; [|reflexivity]. unfold submitted_text in E.
    destruct file_upload as [raw|]; [|discriminate E].
    exists raw. split; [reflexivity|exact E].
  - specialize (Hperm _ eq_refl).
    destruct (prepare_hosts content) as [|h hs].
    + left. split; reflexivity.
    + right. split; [discriminate|].
      destruct (run_checks_returns world sched (h :: hs) p warn_days workers
                  ltac:(discriminate) Hw Hperm) as (b & Hrun & Hlen).
      exists b. rewrite Hrun. split; [reflexivity|exact Hlen].
Qed.

Lemma submission_outcomes_witness :
  exists b,
    on_submit three_hosts_world [2; 0; 1]%nat (decodes_to three_hosts_text)
      "example.com" (Some three_hosts_file) 443 15 10 = Report b /\
    length (df b) = 3%nat.
Proof.
  destruct (submission_outcomes three_hosts_world [2; 0; 1]%nat
              (decodes_to three_hosts_text) "example.com"
              (Some three_hosts_file) 443 15 10)
    as [[H _]|(_ & b & Hb & Hlen)].
  - lia.
  - intros hosts [= <-].
    apply (Permutation_cons_app [0; 1]%nat [] 2%nat). reflexivity.
  - vm_compute in H. discriminate H.
  - exists b. split; [exact Hb|exact Hlen].
Defined.

(** An upload that starts with the byte [0xff] ends the run of the page with
    the exception of the decoding, whatever the text area holds. *)
Example undecodable_upload_crashes :
  on_submit three_hosts_world [] undecodable "example.com"
    (Some [Byte.xff; Byte.xfe; Byte.x61]) 443 15 10
  = Crashed {| exc_class := "UnicodeDecodeError";
               exc_str := "'utf-8' codec can't decode byte 0xff in position 0: invalid start byte" |}.
Proof. reflexivity. Qed.

(** X23. A submission whose lines are all blank asks for a host, and one
    with an uploaded file reads its hosts from the file alone, whatever the
    text area holds. *)
Theorem submission_sources world sched decode hosts_input raw p warn_days
    workers :
  (Forall (fun l => blank l = true) (Str.splitlines hosts_input) ->
   on_submit world sched decode hosts_input None p warn_days workers
   = PleaseProvideHost) /\
  on_submit world sched decode hosts_input (Some raw) p warn_days workers
  = on_submit world sched decode "" (Some raw) p warn_days workers.
Proof.
  split; [|reflexivity].
  intros Hblank. unfold on_submit, submitted_hosts, submitted_text.
  rewrite prepare_hosts_filter.
  replace (filter (fun h => h <> "") (Str.strip <$> Str.splitlines hosts_input))
    with (@nil string); [reflexivity|].
  induction Hblank as [|l ls Hl _ IH]; [reflexivity|].
  cbn [fmap list_fmap]. rewrite filter_cons.
  apply strip_blank in Hl. rewrite Hl.
  rewrite decide_False by (intros H; apply H; reflexivity). exact IH.
Qed.

(** X24. [highlight_row] gives every cell of a row the same style, one style
    for each status: on a row with at least one cell the styles tell the
    three statuses apart. *)
Theorem highlight_row_tells_statuses_apart len s1 s2 :
  (0 < len)%nat ->
  length (highlight_row len s1) = len /\
  (forall a b, a ∈ highlight_row len s1 -> b ∈ highlight_row len s1 -> a = b) /\
  (highlight_row len s1 = highlight_row len s2 <-> s1 = s2).
Proof.
  intros Hlen. split; [|split].
  - destruct s1; apply length_replicate.
  - intros a b Ha Hb.
    destruct s1; apply elem_of_replicate_inv in Ha, Hb; congruence.
  - split; [|intros ->; reflexivity].
    destruct len as [|len]; [lia|].
    destruct s1, s2; cbn [highlight_row]; rewrite !replicate_S;
      intros H; first [reflexivity | discriminate H].
Qed.

Lemma highlight_row_tells_statuses_apart_witness :
  length (highlight_row (length display_columns) WARNING) = 6%nat.
Proof.
  refine (proj1 (highlight_row_tells_statuses_apart (length display_columns)
                   WARNING ERROR _)).
  cbn. lia.
Defined.
